(** * RSS-bot: the ingestion-to-publication pipeline, embedded and verified

    Shallow embedding of [src/ingest.py], [src/normalizer.py],
    [src/security.py], [src/database.py] and [src/scheduler.py].

    Conventions of the embedding.
    - A Python [str] is represented by its UTF-8 encoding, held in a Rocq
      [string] (a sequence of bytes).  [s.encode('utf-8')] is then the byte
      sequence itself, [+] and f-strings are [+:+], [in] is byte-substring
      search (UTF-8 is self-synchronising), while [len] and slicing count
      code points ([py_len], [py_prefix]).  Strings with lone surrogates,
      which have no UTF-8 encoding, are outside the model.
    - [datetime] values are integers (seconds), [None] is [None].
    - A table of the store is the list of its rows in row order; the
      [settings] table, keyed by its unique [key], is a finite map.
    - Calls into third-party libraries (feedparser, json, readability,
      BeautifulSoup, re, urllib, the Telegram publisher) are parameters of
      the sections that use them; where the source guards such a call with
      [try]/[except], the parameter returns a [result].
    - A function of the source returns, next to its value, the store as it
      leaves it and the calls and log records it issued.  The statements of
      the store go through, except in the retention cycle, where each of
      them may fail. *)

From Stdlib Require Import ZArith Lia.
From Stdlib Require Import Ascii.
From Stdlib Require String.
From stdpp Require Import base option list strings pretty gmap.

Local Open Scope Z_scope.

(** ** Exceptions as values *)

Inductive result (A : Type) : Type :=
| Ok (a : A)
| Raise (msg : string).
Arguments Ok {A} a.
Arguments Raise {A} msg.

Definition rbind {A B} (r : result A) (k : A -> result B) : result B :=
  match r with
  | Ok a => k a
  | Raise e => Raise e
  end.

#[global] Instance result_ret : MRet result := fun A a => Ok a.
#[global] Instance result_bind : MBind result :=
  fun A B k r => rbind r k.

(** ** Python strings over their UTF-8 encoding *)

Module PyStr.

Definition byte_of (c : ascii) : Z := Z.of_N (N_of_ascii c).

Fixpoint encode (s : string) : list Z :=
  match s with
  | EmptyString => []
  | String c s' => byte_of c :: encode s'
  end.

(** A byte [10xxxxxx] continues a code point; every other byte starts one. *)
Definition is_continuation (c : ascii) : bool :=
  Z.land (byte_of c) 192 =? 128.

(** [len(s)] *)
Fixpoint py_len (s : string) : Z :=
  match s with
  | EmptyString => 0
  | String c s' => (if is_continuation c then 0 else 1) + py_len s'
  end.

(** [s[:n]] for [n >= 0]: the first [n] code points. *)
Fixpoint py_prefix (n : nat) (s : string) : string :=
  match s with
  | EmptyString => EmptyString
  | String c s' =>
      if is_continuation c then String c (py_prefix n s')
      else match n with
           | O => EmptyString
           | S n' => String c (py_prefix n' s')
           end
  end.

(** [s.startswith(p)] *)
Definition startswith (p s : string) : bool := String.prefix p s.

(** [needle in hay] *)
Fixpoint contains (needle hay : string) : bool :=
  String.prefix needle hay ||
  match hay with
  | EmptyString => false
  | String _ hay' => contains needle hay'
  end.

(** [s.replace(a, b)] for a one-character [a]. *)
Fixpoint replace_char (a b : ascii) (s : string) : string :=
  match s with
  | EmptyString => EmptyString
  | String c s' =>
      String (if Ascii.eqb c a then b else c) (replace_char a b s')
  end.

Fixpoint rev_string (s acc : string) : string :=
  match s with
  | EmptyString => acc
  | String c s' => rev_string s' (String c acc)
  end.

(** [s.endswith(p)] *)
Definition endswith (p s : string) : bool :=
  String.prefix (rev_string p EmptyString) (rev_string s EmptyString).

(** Truthiness of a string: [if s:] *)
Definition truthy (s : string) : bool :=
  match s with EmptyString => false | _ => true end.

End PyStr.

(** ** SHA-256 (FIPS 180-4), as [hashlib.sha256] computes it *)

Module SHA256.

Definition w32 (x : Z) : Z := x mod 4294967296.
Definition add32 (x y : Z) : Z := w32 (x + y).
Definition rotr (n x : Z) : Z :=
  w32 (Z.lor (Z.shiftr x n) (Z.shiftl x (32 - n))).
Definition shr (n x : Z) : Z := Z.shiftr x n.

Definition Ch (x y z : Z) : Z :=
  Z.lxor (Z.land x y) (Z.land (Z.lxor x 4294967295) z).
Definition Maj (x y z : Z) : Z :=
  Z.lxor (Z.lxor (Z.land x y) (Z.land x z)) (Z.land y z).
Definition Sigma0 (x : Z) : Z :=
  Z.lxor (Z.lxor (rotr 2 x) (rotr 13 x)) (rotr 22 x).
Definition Sigma1 (x : Z) : Z :=
  Z.lxor (Z.lxor (rotr 6 x) (rotr 11 x)) (rotr 25 x).
Definition sigma0 (x : Z) : Z :=
  Z.lxor (Z.lxor (rotr 7 x) (rotr 18 x)) (shr 3 x).
Definition sigma1 (x : Z) : Z :=
  Z.lxor (Z.lxor (rotr 17 x) (rotr 19 x)) (shr 10 x).

(** The constants are defined as FIPS 180-4 defines them: the first 32
    bits of the fractional parts of the cube roots (for [K]) and of the
    square roots (for [H0]) of the first primes. *)
Definition is_prime (n : Z) : bool :=
  forallb (fun d => negb (n mod Z.of_nat d =? 0))
          (List.seq 2 (Z.to_nat n - 2)).

Definition primes_below (n : nat) : list Z :=
  List.filter is_prime (List.map Z.of_nat (List.seq 2 (n - 2))).

(** Integer cube root, one bit at a time from bit [k - 1] down. *)
Fixpoint cbrt_bits (k : nat) (n r : Z) : Z :=
  match k with
  | O => r
  | S k' =>
      let c := r + 2 ^ Z.of_nat k' in
      cbrt_bits k' n (if c * c * c <=? n then c else r)
  end.

Definition frac_cbrt32 (p : Z) : Z := w32 (cbrt_bits 36 (p * 2 ^ 96) 0).
Definition frac_sqrt32 (p : Z) : Z := w32 (Z.sqrt (p * 2 ^ 64)).

Definition K : list Z :=
  Eval vm_compute in List.map frac_cbrt32 (primes_below 312).

(** The eight working variables / chaining values. *)
Record state : Type := mkState
  { ha : Z; hb : Z; hc : Z; hd : Z; he : Z; hf : Z; hg : Z; hh : Z }.

Definition H0 : state :=
  Eval vm_compute in
    let r := frac_sqrt32 in
    mkState (r 2) (r 3) (r 5) (r 7) (r 11) (r 13) (r 17) (r 19).

(** Padding: a [1] bit, zeros up to 56 mod 64, the bit length on 8 bytes. *)
Definition be_bytes (n : nat) (x : Z) : list Z :=
  List.map (fun i => Z.land (Z.shiftr x (8 * Z.of_nat i)) 255)
           (List.rev (List.seq 0 n)).

Definition pad (msg : list Z) : list Z :=
  let l := Z.of_nat (List.length msg) in
  let k := (55 - l) mod 64 in
  msg ++ [128] ++ List.repeat 0 (Z.to_nat k) ++ be_bytes 8 (8 * l).

Fixpoint words (fuel : nat) (bs : list Z) : list Z :=
  match fuel, bs with
  | S fuel', b0 :: b1 :: b2 :: b3 :: rest =>
      (b0 * 16777216 + b1 * 65536 + b2 * 256 + b3) :: words fuel' rest
  | _, _ => []
  end.

(** Message schedule: sixteen block words extended to sixty-four. *)
Fixpoint extend (n : nat) (w : list Z) : list Z :=
  match n with
  | O => w
  | S n' =>
      let t := List.length w in
      let at_ i := List.nth (t - i) w 0 in
      extend n' (w ++ [add32 (add32 (sigma1 (at_ 2%nat)) (at_ 7%nat))
                             (add32 (sigma0 (at_ 15%nat)) (at_ 16%nat))])
  end.

Definition round (s : state) (kw : Z * Z) : state :=
  let '(k, w) := kw in
  let t1 := add32 (add32 (add32 (hh s) (Sigma1 (he s)))
                         (add32 (Ch (he s) (hf s) (hg s)) k)) w in
  let t2 := add32 (Sigma0 (ha s)) (Maj (ha s) (hb s) (hc s)) in
  mkState (add32 t1 t2) (ha s) (hb s) (hc s)
          (add32 (hd s) t1) (he s) (hf s) (hg s).

Definition compress (h : state) (block : list Z) : state :=
  let w := extend 48 block in
  let s := List.fold_left round (List.combine K w) h in
  mkState (add32 (ha h) (ha s)) (add32 (hb h) (hb s))
          (add32 (hc h) (hc s)) (add32 (hd h) (hd s))
          (add32 (he h) (he s)) (add32 (hf h) (hf s))
          (add32 (hg h) (hg s)) (add32 (hh h) (hh s)).

Fixpoint blocks (fuel : nat) (h : state) (ws : list Z) : state :=
  match fuel, ws with
  | S fuel', _ :: _ =>
      blocks fuel' (compress h (List.firstn 16 ws)) (List.skipn 16 ws)
  | _, _ => h
  end.

Definition digest (msg : list Z) : state :=
  let p := pad msg in
  let ws := words (List.length p) p in
  blocks (List.length ws) H0 ws.

Definition hex_digit (n : Z) : ascii :=
  ascii_of_N (Z.to_N (if n <? 10 then 48 + n else 87 + n)).

Definition nibble (i x : Z) : Z := Z.land (Z.shiftr x (4 * i)) 15.

Definition hex8 (x : Z) (tail : string) : string :=
  String (hex_digit (nibble 7 x)) (String (hex_digit (nibble 6 x))
 (String (hex_digit (nibble 5 x)) (String (hex_digit (nibble 4 x))
 (String (hex_digit (nibble 3 x)) (String (hex_digit (nibble 2 x))
 (String (hex_digit (nibble 1 x)) (String (hex_digit (nibble 0 x))
  tail))))))).

(** The characters of a hex digest: [0-9a-f]. *)
Definition is_hex_digit (c : ascii) : bool :=
  let b := Z.of_N (N_of_ascii c) in
  ((48 <=? b) && (b <=? 57)) || ((97 <=? b) && (b <=? 102)).

Fixpoint all_chars (p : ascii -> bool) (s : string) : bool :=
  match s with
  | EmptyString => true
  | String c s' => p c && all_chars p s'
  end.

(** [hashlib.sha256(msg).hexdigest()] *)
Definition hexdigest (msg : list Z) : string :=
  let s := digest msg in
  hex8 (ha s) (hex8 (hb s) (hex8 (hc s) (hex8 (hd s)
 (hex8 (he s) (hex8 (hf s) (hex8 (hg s) (hex8 (hh s) ""))))))).

End SHA256.

(** ** Configuration ([src/config.py]) *)

Record Settings : Type := mkSettings
  { admin_ids : list Z;
    base_poll_minutes : Z;
    utm_on : bool;
    utm_source : string;
    utm_medium : string;
    utm_campaign : string;
    queue_max_size : Z;
    retry_attempts : Z;
    retry_delay_seconds : Z }.

(** The [Field(default=...)] values. *)
Definition default_settings : Settings :=
  {| admin_ids := [];
     base_poll_minutes := 10;
     utm_on := true;
     utm_source := "telegram";
     utm_medium := "social";
     utm_campaign := "rss_auto";
     queue_max_size := 1000;
     retry_attempts := 3;
     retry_delay_seconds := 60 |}.

(** ** The store ([src/database.py])

    Rows carry the columns that the pipeline reads or writes; a feed's
    label and language, a publication's result and view count, and the
    row timestamps that no cycle consults are left out. *)

Record Feed : Type := mkFeed
  { f_id : Z;
    f_url : string;
    f_enabled : bool;
    f_last_ok_at : option Z;
    f_last_error_at : option Z;
    f_last_error_msg : option string }.

(** Row of [items].  [i_tags] holds the list whose JSON text the column
    stores ([json.dumps] on write, [json.loads] on read). *)
Record Item : Type := mkItem
  { i_id : Z;
    i_feed_id : Z;
    i_guid : string;
    i_title : string;
    i_link : string;
    i_published_at : option Z;
    i_content_hash : string;
    i_has_media : bool;
    i_summary : option string;
    i_content : option string;
    i_image_url : option string;
    i_tags : list string;
    i_created_at : Z }.

(** The columns of [Item].  The class has no attribute [word_count]:
    [Item.word_count] raises [AttributeError]. *)
Definition Item_columns : list string :=
  [ "id"; "feed_id"; "guid"; "title"; "link"; "published_at";
    "content_hash"; "has_media"; "summary"; "content"; "image_url";
    "tags"; "created_at" ].

(** Row of [queue]: [status] is one of pending, processing, completed,
    failed; [type] is post or story; [attempts] defaults to [0]. *)
Record QueueItem : Type := mkQueueItem
  { q_id : Z;
    q_item_id : Z;
    q_type : string;
    q_channel_id : option string;
    q_scheduled_at : option Z;
    q_status : string;
    q_attempts : Z;
    q_last_attempt_at : option Z;
    q_error_msg : option string;
    q_created_at : Z }.

Record Publish : Type := mkPublish
  { p_id : Z;
    p_item_id : Z;
    p_target : string;
    p_type : string;
    p_message_id : option string;
    p_posted_at : Z }.

Record Store : Type := mkStore
  { feeds : list Feed;
    items : list Item;
    queue : list QueueItem;
    publishes : list Publish;
    settings : gmap string (option string) }.

(** An [Integer] primary key left to the engine: one more than the largest
    key of the table. *)
Definition next_id (ids : list Z) : Z := 1 + foldr Z.max 0 ids.

(** ** Raw feed entries ([FeedItem], [src/ingest.py]) *)

Record FeedItem : Type := mkFeedItem
  { guid : string;
    title : string;
    link : string;
    published_at : option Z;
    summary : string;
    content : string;
    image_url : option string;
    tags : list string;
    author : string;
    feed_url : string;
    feed_title : string }.

(** The dictionary that [to_dict] builds and that [normalize_item] updates
    in place.  A key that is absent from the dictionary is [None] in
    [feed_id], [content_hash], [hashtags], [lang] and [word_count]. *)
Record ItemDict : Type := mkItemDict
  { d_guid : string;
    d_title : string;
    d_link : string;
    d_published_at : option Z;
    d_summary : string;
    d_content : string;
    d_image_url : option string;
    d_tags : list string;
    d_author : string;
    d_feed_url : string;
    d_feed_title : string;
    d_feed_id : option Z;
    d_content_hash : option string;
    d_hashtags : option (list string);
    d_lang : option string;
    d_word_count : option Z }.

Definition to_dict (it : FeedItem) : ItemDict :=
  {| d_guid := guid it;
     d_title := title it;
     d_link := link it;
     d_published_at := published_at it;
     d_summary := summary it;
     d_content := content it;
     d_image_url := image_url it;
     d_tags := tags it;
     d_author := author it;
     d_feed_url := feed_url it;
     d_feed_title := feed_title it;
     d_feed_id := None;
     d_content_hash := None;
     d_hashtags := None;
     d_lang := None;
     d_word_count := None |}.

(** ** Text libraries used by the normalizer *)

Class TextLib : Type :=
  { (** [BeautifulSoup(html, 'html.parser').get_text()] *)
    soup_get_text : string -> result string;
    (** the [try] body of [_html_to_markdown] (walk of the parsed tree) *)
    soup_markdown : string -> result string;
    (** [re.sub(pattern, repl, s)] *)
    re_sub : string -> string -> string -> string;
    (** [re.split(pattern, s)] *)
    re_split : string -> string -> list string;
    (** [len(re.findall(pattern, s))] *)
    re_count : string -> string -> Z;
    (** [s.strip()] *)
    py_strip : string -> string;
    (** [s.lower()] *)
    py_lower : string -> string;
    (** [len(s.split())] *)
    py_split_len : string -> Z;
    (** [urlparse(url).netloc] *)
    urlparse_netloc : string -> result string;
    (** the [try] body of [_add_utm_parameters]: parse, set the three
        [utm_*] keys, rebuild *)
    utm_rewrite : Settings -> string -> result string;
    (** the query rewriting of [_normalize_image_url]: parse, drop the
        tracking keys, rebuild *)
    strip_tracking : string -> result string }.

(** ** [src/security.py] *)

(** [SecurityManager.hash_content] *)
Definition hash_content (content : string) : string :=
  SHA256.hexdigest (PyStr.encode content).

(** ** The normalizer ([src/normalizer.py]) *)

Section Normalizer.
Context `{TextLib}.
Variable cfg : Settings.

(** [s[:n] + "..."] when [len(s) > limit] *)
Definition ellipsize (limit : Z) (keep : nat) (s : string) : string :=
  if PyStr.py_len s >? limit then PyStr.py_prefix keep s +:+ "..." else s.

Definition _remove_html_tags (html : string) : result string :=
  if PyStr.truthy html then soup_get_text html else Ok "".

Definition dquote : string := String (ascii_of_nat 34) EmptyString.

Definition _fix_typography (text : string) : string :=
  if PyStr.truthy text then
    let text := re_sub (dquote +:+ "([^" +:+ dquote +:+ "]*)" +:+ dquote)
                       (dquote +:+ "\1" +:+ dquote) text in
    let text := re_sub "'([^']*)'" "'\1'" text in
    let text := re_sub "--+" "—" text in
    let text := re_sub "\s+([.,!?;:])" "\1" text in
    text
  else "".

Definition _normalize_title (title : string) : result string :=
  if PyStr.truthy title then
    title ← _remove_html_tags title;
    let title := py_strip (re_sub "\s+" " " title) in
    let title := ellipsize 200 197 title in
    Ok (_fix_typography title)
  else Ok "".

(** ['. '.join(parts)] *)
Fixpoint join_sentences (parts : list string) : string :=
  match parts with
  | [] => ""
  | [p] => p
  | p :: rest => p +:+ ". " +:+ join_sentences rest
  end.

Definition _normalize_summary (summary : string) : result string :=
  if PyStr.truthy summary then
    summary ← _remove_html_tags summary;
    let summary := py_strip (re_sub "\s+" " " summary) in
    let sentences := re_split "[.!?]+" summary in
    let summary :=
      if (3 <? length sentences)%nat
      then join_sentences (take 3 sentences) +:+ "."
      else summary in
    Ok (ellipsize 300 297 summary)
  else Ok "".

Definition _html_to_markdown (html : string) : result string :=
  if PyStr.truthy html then
    match soup_markdown html with
    | Ok md => Ok md
    | Raise _ => _remove_html_tags html
    end
  else Ok "".

Definition nl : string := String (ascii_of_nat 10) EmptyString.

Definition _clean_markdown (markdown_text : string) : string :=
  if PyStr.truthy markdown_text then
    let t := re_sub "\n{3,}" (nl +:+ nl) markdown_text in
    let t := re_sub "([^\s])\*\*([^\s])" "\1 **\2" t in
    let t := re_sub "([^\s])\*([^\s])" "\1 *\2" t in
    py_strip t
  else "".

Definition _normalize_content (content : string) : result string :=
  if PyStr.truthy content then
    content ← _html_to_markdown content;
    let content := _clean_markdown content in
    Ok (ellipsize 2000 1997 content)
  else Ok "".

Definition _add_utm_parameters (url : string) : string :=
  if negb (PyStr.truthy url) || negb (utm_on cfg) then url
  else match utm_rewrite cfg url with
       | Ok u => u
       | Raise _ => url
       end.

(** [_extract_domain]: [None] for an empty URL or when parsing raises. *)
Definition _extract_domain (url : string) : option string :=
  if PyStr.truthy url then
    match urlparse_netloc url with
    | Ok netloc =>
        let domain := py_lower netloc in
        Some (if PyStr.startswith "www." domain
              then String.substring 4 (String.length domain - 4) domain
              else domain)
    | Raise _ => None
    end
  else None.

(** The [common_tags] dictionary, in insertion order. *)
Definition common_tags : list (string * list string) :=
  [ ("новости", ["новости"; "новость"; "новостей"]);
    ("технологии", ["технологии"; "технология"; "tech"; "technology"]);
    ("ai", ["искусственный интеллект"; "ai"; "artificial intelligence";
            "машинное обучение"]);
    ("telegram", ["telegram"; "телеграм"]);
    ("программирование", ["программирование"; "код"; "разработка";
                          "coding"]);
    ("криптовалюта", ["криптовалюта"; "биткоин"; "blockchain"; "crypto"]);
    ("игры", ["игры"; "game"; "gaming"]);
    ("финансы", ["финансы"; "экономика"; "деньги"; "finance"]);
    ("спорт", ["спорт"; "футбол"; "баскетбол"; "sport"]);
    ("политика", ["политика"; "политик"; "государство"]);
    ("наука", ["наука"; "исследование"; "science"]);
    ("здоровье", ["здоровье"; "медицина"; "health"]);
    ("образование", ["образование"; "учеба"; "education"]);
    ("культура", ["культура"; "искусство"; "art"]);
    ("путешествия", ["путешествия"; "туризм"; "travel"]) ].

(** The loop over [common_tags]: one tag per category with a keyword
    occurring in [text]. *)
Definition keyword_tags (text : string) : list string :=
  flat_map
    (fun '(tag, keywords) =>
       if existsb (fun keyword => PyStr.contains keyword text) keywords
       then ["#" +:+ tag] else [])
    common_tags.

Definition domain_tags (link : string) : list string :=
  match _extract_domain link with
  | Some domain =>
      if PyStr.truthy domain
      then ["#" +:+ PyStr.replace_char "-" "_"
                      (PyStr.replace_char "." "_" domain)]
      else []
  | None => []
  end.

Definition lang_tags (lang : option string) : list string :=
  let lang := default "ru" lang in
  if String.eqb lang "en" then ["#english"]
  else if String.eqb lang "ru" then ["#русский"]
  else [].

Definition _generate_hashtags (item : ItemDict) : list string :=
  let text := py_lower (d_title item +:+ " " +:+ d_summary item
                        +:+ " " +:+ d_content item) in
  let hashtags := keyword_tags text in
  let hashtags := hashtags ++ domain_tags (d_link item) in
  let hashtags := hashtags ++ lang_tags (d_lang item) in
  take 5 hashtags.

Definition _normalize_image_url (image_url : option string)
  : option string :=
  match image_url with
  | None => None
  | Some u =>
      if PyStr.truthy u then
        if PyStr.startswith "http" u then
          match strip_tracking u with
          | Ok u' => Some u'
          | Raise _ => Some u
          end
        else None
      else None
  end.

Definition _detect_language (text : string) : string :=
  if PyStr.truthy text then
    let cyrillic_count := re_count "[а-яё]" (py_lower text) in
    let latin_count := re_count "[a-z]" (py_lower text) in
    if cyrillic_count >? latin_count then "ru"
    else if latin_count >? cyrillic_count then "en"
    else "ru"
  else "ru".

Definition _count_words (text : string) : result Z :=
  if PyStr.truthy text then
    clean_text ← _remove_html_tags text;
    Ok (re_count "\b\w+\b" clean_text)
  else Ok 0.

(** Statements of a [try] body run in order on the dictionary; the first
    one that raises ends the body and leaves the dictionary as it is. *)
Fixpoint run_try (steps : list (ItemDict -> result ItemDict))
                 (d : ItemDict) : ItemDict :=
  match steps with
  | [] => d
  | step :: rest =>
      match step d with
      | Ok d' => run_try rest d'
      | Raise _ => d
      end
  end.

Definition set_title (v : string) (d : ItemDict) : ItemDict :=
  mkItemDict (d_guid d) v (d_link d) (d_published_at d) (d_summary d)
    (d_content d) (d_image_url d) (d_tags d) (d_author d) (d_feed_url d)
    (d_feed_title d) (d_feed_id d) (d_content_hash d) (d_hashtags d)
    (d_lang d) (d_word_count d).
Definition set_summary (v : string) (d : ItemDict) : ItemDict :=
  mkItemDict (d_guid d) (d_title d) (d_link d) (d_published_at d) v
    (d_content d) (d_image_url d) (d_tags d) (d_author d) (d_feed_url d)
    (d_feed_title d) (d_feed_id d) (d_content_hash d) (d_hashtags d)
    (d_lang d) (d_word_count d).
Definition set_content (v : string) (d : ItemDict) : ItemDict :=
  mkItemDict (d_guid d) (d_title d) (d_link d) (d_published_at d)
    (d_summary d) v (d_image_url d) (d_tags d) (d_author d) (d_feed_url d)
    (d_feed_title d) (d_feed_id d) (d_content_hash d) (d_hashtags d)
    (d_lang d) (d_word_count d).
Definition set_link (v : string) (d : ItemDict) : ItemDict :=
  mkItemDict (d_guid d) (d_title d) v (d_published_at d) (d_summary d)
    (d_content d) (d_image_url d) (d_tags d) (d_author d) (d_feed_url d)
    (d_feed_title d) (d_feed_id d) (d_content_hash d) (d_hashtags d)
    (d_lang d) (d_word_count d).
Definition set_image_url (v : option string) (d : ItemDict) : ItemDict :=
  mkItemDict (d_guid d) (d_title d) (d_link d) (d_published_at d)
    (d_summary d) (d_content d) v (d_tags d) (d_author d) (d_feed_url d)
    (d_feed_title d) (d_feed_id d) (d_content_hash d) (d_hashtags d)
    (d_lang d) (d_word_count d).
Definition set_feed_id (v : Z) (d : ItemDict) : ItemDict :=
  mkItemDict (d_guid d) (d_title d) (d_link d) (d_published_at d)
    (d_summary d) (d_content d) (d_image_url d) (d_tags d) (d_author d)
    (d_feed_url d) (d_feed_title d) (Some v) (d_content_hash d)
    (d_hashtags d) (d_lang d) (d_word_count d).
Definition set_content_hash (v : string) (d : ItemDict) : ItemDict :=
  mkItemDict (d_guid d) (d_title d) (d_link d) (d_published_at d)
    (d_summary d) (d_content d) (d_image_url d) (d_tags d) (d_author d)
    (d_feed_url d) (d_feed_title d) (d_feed_id d) (Some v)
    (d_hashtags d) (d_lang d) (d_word_count d).
Definition set_hashtags (v : list string) (d : ItemDict) : ItemDict :=
  mkItemDict (d_guid d) (d_title d) (d_link d) (d_published_at d)
    (d_summary d) (d_content d) (d_image_url d) (d_tags d) (d_author d)
    (d_feed_url d) (d_feed_title d) (d_feed_id d) (d_content_hash d)
    (Some v) (d_lang d) (d_word_count d).
Definition set_lang (v : string) (d : ItemDict) : ItemDict :=
  mkItemDict (d_guid d) (d_title d) (d_link d) (d_published_at d)
    (d_summary d) (d_content d) (d_image_url d) (d_tags d) (d_author d)
    (d_feed_url d) (d_feed_title d) (d_feed_id d) (d_content_hash d)
    (d_hashtags d) (Some v) (d_word_count d).
Definition set_word_count (v : Z) (d : ItemDict) : ItemDict :=
  mkItemDict (d_guid d) (d_title d) (d_link d) (d_published_at d)
    (d_summary d) (d_content d) (d_image_url d) (d_tags d) (d_author d)
    (d_feed_url d) (d_feed_title d) (d_feed_id d) (d_content_hash d)
    (d_hashtags d) (d_lang d) (Some v).

(** The text that [normalize_item] hashes: the f-string
    [f"{item['title']}{item['summary']}{item['content']}"]. *)
Definition content_for_hash (d : ItemDict) : string :=
  d_title d +:+ d_summary d +:+ d_content d.

Definition normalize_item (item : ItemDict) : ItemDict :=
  run_try
    [ (fun d => t ← _normalize_title (d_title d); Ok (set_title t d));
      (fun d => s ← _normalize_summary (d_summary d);
                Ok (set_summary s d));
      (fun d => c ← _normalize_content (d_content d);
                Ok (set_content c d));
      (fun d => Ok (set_link (_add_utm_parameters (d_link d)) d));
      (fun d => Ok (set_content_hash (hash_content (content_for_hash d))
                                     d));
      (fun d => Ok (set_hashtags (_generate_hashtags d) d));
      (fun d => Ok (set_image_url (_normalize_image_url (d_image_url d))
                                  d));
      (fun d => Ok (set_lang (_detect_language
                                (d_title d +:+ " " +:+ d_summary d)) d));
      (fun d => w ← _count_words (d_content d);
                Ok (set_word_count w d)) ]
    item.

End Normalizer.

(** ** The format-cascade fetcher ([src/ingest.py]) *)

(** What [feedparser.parse(content)] yields, as [_parse_xml_feed] reads
    it.  An attribute probed with [hasattr] is an [option]; [e_date],
    [e_content], [e_image] and [e_tags] are what [_parse_date],
    [_extract_content], [_extract_image] and [_extract_tags] read off the
    entry. *)
Record XmlEntry : Type := mkXmlEntry
  { e_id : option string;
    e_guid : option string;
    e_link : option string;
    e_title : string;
    e_summary : string;
    e_author : string;
    e_date : option Z;
    e_content : string;
    e_image : option string;
    e_tags : list string }.

Record XmlFeed : Type := mkXmlFeed
  { bozo : bool;
    bozo_exception : string;
    xf_title : string;
    entries : list XmlEntry }.

(** What [json.loads(content)] yields, as [_parse_json_feed] reads it. *)
Record JsonEntry : Type := mkJsonEntry
  { j_id : string;
    j_title : string;
    j_url : string;
    j_date_published : option Z;
    j_summary : string;
    j_content_text : string;
    j_image : option string;
    j_tags : list string;
    j_author : string }.

Inductive JsonDoc : Type :=
| JsonOther                       (* not a dict, or no 'version' key *)
| JsonFeed (jf_title : string) (jf_items : list JsonEntry).

(** The outcome of [session.get(url)] followed by [response.text()]. *)
Inductive HttpOutcome : Type :=
| HttpTimeout                     (* asyncio.TimeoutError *)
| HttpException (msg : string)    (* any other exception *)
| HttpResponse (status : Z) (reason : string) (text : string)
               (content_type : string).

Class FeedLib : Type :=
  { (** [feedparser.parse(content)] *)
    feedparser_parse : string -> result XmlFeed;
    (** [json.loads(content)]; [Raise] is [json.JSONDecodeError] *)
    json_loads : string -> result JsonDoc;
    (** [Document(content)], then [doc.title()] and [doc.summary()] *)
    readability : string -> result (string * string);
    (** a node of a BeautifulSoup tree *)
    Tag : Type;
    (** [BeautifulSoup(content, 'html.parser')] *)
    html_parse : string -> result Tag;
    (** [element.select(selector)] *)
    select : Tag -> string -> list Tag;
    (** [element.get_text()] *)
    get_text : Tag -> string;
    (** the [content] of [element.find('meta', property='og:image')] *)
    find_og_image : Tag -> option string;
    (** the [src] of [element.find('img')] *)
    find_img_src : Tag -> option string;
    (** [urljoin(base, link)] *)
    urljoin : string -> string -> string;
    (** [f"{hash(s)}"], with the hash seed of the running interpreter *)
    py_hash : string -> string }.

(** The libraries as the interpreter has them after a restart: the same,
    with the string hash under the seed of the new process
    ([hash] of a [str] is salted per process). *)
Definition restarted (F : FeedLib) (hash : string -> string) : FeedLib :=
  {| feedparser_parse := @feedparser_parse F;
     json_loads := @json_loads F;
     readability := @readability F;
     Tag := @Tag F;
     html_parse := @html_parse F;
     select := @select F;
     get_text := @get_text F;
     find_og_image := @find_og_image F;
     find_img_src := @find_img_src F;
     urljoin := @urljoin F;
     py_hash := hash |}.

(** [str(n)] for an integer *)
Definition str_of_int (n : Z) : string := pretty n.

(** [(success, items, error_message)] *)
Definition FetchResult : Type := bool * list FeedItem * string.

Definition fetch_success (r : FetchResult) : bool := r.1.1.
Definition fetch_items (r : FetchResult) : list FeedItem := r.1.2.
Definition fetch_error (r : FetchResult) : string := r.2.

Section Ingester.
Context `{TextLib} `{FeedLib}.

Definition _clean_text (text : string) : result string :=
  if PyStr.truthy text then
    text ← soup_get_text text;
    Ok (py_strip (re_sub "\s+" " " text))
  else Ok "".

Definition _extract_link (entry : XmlEntry) (base_url : string) : string :=
  match e_link entry with
  | Some link =>
      if PyStr.truthy link && negb (PyStr.startswith "http" link)
      then urljoin base_url link
      else link
  | None => ""
  end.

(** First truthy attribute among [id], [guid], [link]. *)
Fixpoint first_truthy (fields : list (option string)) : option string :=
  match fields with
  | [] => None
  | Some v :: rest => if PyStr.truthy v then Some v else first_truthy rest
  | None :: rest => first_truthy rest
  end.

Definition _extract_guid (entry : XmlEntry) : string :=
  match first_truthy [e_id entry; e_guid entry; e_link entry] with
  | Some v => v
  | None => py_hash (e_title entry +:+ _extract_link entry "")
  end.

(** A [for] loop appending one converted entry per iteration; the first
    conversion that raises ends the loop with that exception. *)
Fixpoint collect {A B} (f : A -> result B) (l : list A) : result (list B) :=
  match l with
  | [] => Ok []
  | x :: rest =>
      y ← f x;
      ys ← collect f rest;
      Ok (y :: ys)
  end.

Definition xml_item (url feed_title : string) (entry : XmlEntry)
  : result FeedItem :=
  t ← _clean_text (e_title entry);
  s ← _clean_text (e_summary entry);
  Ok {| guid := _extract_guid entry;
        title := t;
        link := _extract_link entry url;
        published_at := e_date entry;
        summary := s;
        content := e_content entry;
        image_url := e_image entry;
        tags := e_tags entry;
        author := e_author entry;
        feed_url := url;
        feed_title := feed_title |}.

Definition _parse_xml_feed (content url : string) : FetchResult :=
  match feedparser_parse content with
  | Raise e => (false, [], e)
  | Ok feed =>
      if bozo feed
      then (false, [], "Feed parsing error: " +:+ bozo_exception feed)
      else match collect (xml_item url (xf_title feed)) (entries feed) with
           | Ok items => (true, items, "")
           | Raise e => (false, [], e)
           end
  end.

Definition json_item (url feed_title : string) (entry : JsonEntry)
  : result FeedItem :=
  t ← _clean_text (j_title entry);
  s ← _clean_text (j_summary entry);
  Ok {| guid := j_id entry;
        title := t;
        link := j_url entry;
        published_at := j_date_published entry;
        summary := s;
        content := j_content_text entry;
        image_url := j_image entry;
        tags := j_tags entry;
        author := j_author entry;
        feed_url := url;
        feed_title := feed_title |}.

Definition _parse_json_feed (content url : string) : FetchResult :=
  match json_loads content with
  | Raise e => (false, [], "Invalid JSON: " +:+ e)
  | Ok JsonOther => (false, [], "Invalid JSON Feed format")
  | Ok (JsonFeed feed_title entries) =>
      match collect (json_item url feed_title) entries with
      | Ok items => (true, items, "")
      | Raise e => (false, [], e)
      end
  end.

Definition _extract_html_image (element : Tag) : option string :=
  match find_og_image element with
  | Some c => if PyStr.truthy c then Some c else
                match find_img_src element with
                | Some src => if PyStr.truthy src then Some src else None
                | None => None
                end
  | None => match find_img_src element with
            | Some src => if PyStr.truthy src then Some src else None
            | None => None
            end
  end.

Definition _generate_guid (element : Tag) (url : string) : string :=
  SHA256.hexdigest
    (PyStr.encode (PyStr.py_prefix 100 (get_text element) +:+ url)).

Definition selectors : list string :=
  [ "article"; ".article"; ".post"; ".entry";
    "[class*=" +:+ String (ascii_of_nat 34) "article"
       +:+ String (ascii_of_nat 34) "]";
    "[class*=" +:+ String (ascii_of_nat 34) "post"
       +:+ String (ascii_of_nat 34) "]";
    "[class*=" +:+ String (ascii_of_nat 34) "entry"
       +:+ String (ascii_of_nat 34) "]" ].

(** The selector loop: [articles] is extended with the matches of each
    selector in turn and the loop breaks as soon as it is non-empty. *)
Fixpoint find_articles (soup : Tag) (sels : list string) : list Tag :=
  match sels with
  | [] => []
  | selector :: rest =>
      match select soup selector with
      | [] => find_articles soup rest
      | articles => articles
      end
  end.

(** [title or urlparse(url).netloc] *)
Definition title_or_netloc (title url : string) : result string :=
  if PyStr.truthy title then Ok title else urlparse_netloc url.

Definition article_item (now : Z) (title url : string) (article : Tag)
  : result FeedItem :=
  t ← _clean_text (PyStr.py_prefix 100 (get_text article));
  s ← _clean_text (PyStr.py_prefix 200 (get_text article));
  c ← _clean_text (get_text article);
  ft ← title_or_netloc title url;
  Ok {| guid := _generate_guid article url;
        title := t;
        link := url;
        published_at := Some now;
        summary := s;
        content := c;
        image_url := _extract_html_image article;
        tags := [];
        author := "";
        feed_url := url;
        feed_title := ft |}.

Definition page_item (now : Z) (title content_text url : string)
                     (soup : Tag) : result FeedItem :=
  t ← title_or_netloc title url;
  s ← _clean_text (PyStr.py_prefix 200 content_text);
  c ← _clean_text content_text;
  ft ← title_or_netloc title url;
  Ok {| guid := _generate_guid soup url;
        title := t;
        link := url;
        published_at := Some now;
        summary := s;
        content := c;
        image_url := _extract_html_image soup;
        tags := [];
        author := "";
        feed_url := url;
        feed_title := ft |}.

(** The [try] body of [_parse_html_fallback]. *)
Definition html_fallback_items (now : Z) (content url : string)
  : result (list FeedItem) :=
  '(title, content_text) ← readability content;
  soup ← html_parse content;
  match find_articles soup selectors with
  | [] =>
      item ← page_item now title content_text url soup;
      Ok [item]
  | articles => collect (article_item now title url) (take 10 articles)
  end.

Definition _parse_html_fallback (now : Z) (content url : string)
  : FetchResult :=
  match html_fallback_items now content url with
  | Ok items => (true, items, "")
  | Raise e => (false, [], e)
  end.

Definition fetch_feed (now : Z) (url : string) (http : HttpOutcome)
  : FetchResult :=
  match http with
  | HttpTimeout => (false, [], "Request timeout")
  | HttpException e => (false, [], e)
  | HttpResponse status reason content content_type =>
      if negb (status =? 200)
      then (false, [], "HTTP " +:+ str_of_int status +:+ ": " +:+ reason)
      else
        let content_type := py_lower content_type in
        if PyStr.contains "json" content_type
           || PyStr.endswith ".json" url
        then _parse_json_feed content url
        else if PyStr.contains "xml" content_type
                || PyStr.contains "rss" content_type
                || PyStr.contains "atom" content_type
        then _parse_xml_feed content url
        else
          let r := _parse_xml_feed content url in
          if fetch_success r then r
          else
            let r := _parse_json_feed content url in
            if fetch_success r then r
            else _parse_html_fallback now content url
  end.

End Ingester.

(** ** The publisher, as the scheduler uses it ([src/publisher.py]) *)

(** The dictionary handed to the publisher; a key that the dictionary
    lacks is [None] in [pd_id], [pd_content], [pd_image_url],
    [pd_word_count], [pd_lang] and [pd_feed_id]. *)
Record PostDict : Type := mkPostDict
  { pd_id : option Z;
    pd_title : string;
    pd_summary : option string;
    pd_content : option string;
    pd_link : string;
    pd_image_url : option string;
    pd_hashtags : list string;
    pd_word_count : option Z;
    pd_lang : option string;
    pd_feed_id : option Z }.

(** Outcome of the sending half of [publish_post] (template, media,
    [bot.send_photo] / [bot.send_message]). *)
Inductive SendOutcome : Type :=
| Sent (message_id : string)
| TelegramError (e : string)
| OtherError (e : string).

Class Telegram : Type :=
  { send_post : PostDict -> string -> SendOutcome }.

Inductive Level : Type := INFO | WARNING | ERROR.

(** Calls on collaborators and log records, in program order. *)
Inductive Event : Type :=
| EvModerationPreview (item : PostDict) (admins : list Z)
| EvPublishPost (item : PostDict) (channel : string)
| EvLog (level : Level) (msg : string).

Definition is_delivery (e : Event) : bool :=
  match e with EvPublishPost _ _ => true | _ => false end.

Section Publisher.
Context `{Telegram}.

(** [_record_publication]: the row needs an [item_id]; without one the
    insert fails and the failure is logged. *)
Definition _record_publication (now : Z) (item : PostDict)
    (target pub_type : string) (message_id : option string) (s : Store)
  : Store * list Event :=
  match pd_id item with
  | Some id =>
      (mkStore (feeds s) (items s) (queue s)
         (publishes s ++
            [ {| p_id := next_id (p_id <$> publishes s);
                 p_item_id := id;
                 p_target := target;
                 p_type := pub_type;
                 p_message_id := message_id;
                 p_posted_at := now |} ])
         (settings s), [])
  | None => (s, [EvLog ERROR "Error recording publication"])
  end.

Definition publish_post (now : Z) (item : PostDict) (channel_id : string)
    (s : Store) : (bool * string * option string) * Store * list Event :=
  match send_post item channel_id with
  | Sent message_id =>
      let '(s', evs) :=
        _record_publication now item channel_id "post"
                            (Some message_id) s in
      ((true, "", Some message_id), s',
       EvPublishPost item channel_id :: evs)
  | TelegramError e =>
      ((false, "Telegram API error: " +:+ e, None), s,
       [EvPublishPost item channel_id;
        EvLog ERROR ("Telegram API error: " +:+ e)])
  | OtherError e =>
      ((false, "Error publishing post: " +:+ e, None), s,
       [EvPublishPost item channel_id;
        EvLog ERROR ("Error publishing post: " +:+ e)])
  end.

End Publisher.

(** ** The scheduler ([src/scheduler.py]) *)

Definition set_items (v : list Item) (s : Store) : Store :=
  mkStore (feeds s) v (queue s) (publishes s) (settings s).
Definition set_queue (v : list QueueItem) (s : Store) : Store :=
  mkStore (feeds s) (items s) v (publishes s) (settings s).
Definition set_feeds (v : list Feed) (s : Store) : Store :=
  mkStore v (items s) (queue s) (publishes s) (settings s).

(** Writing back a mapped row: the row with the same primary key. *)
Definition update_feed (f : Feed) (s : Store) : Store :=
  set_feeds ((fun r => if f_id r =? f_id f then f else r) <$> feeds s) s.
Definition update_queue_item (q : QueueItem) (s : Store) : Store :=
  set_queue ((fun r => if q_id r =? q_id q then q else r) <$> queue s) s.

Definition set_status (st : string) (q : QueueItem) : QueueItem :=
  mkQueueItem (q_id q) (q_item_id q) (q_type q) (q_channel_id q)
    (q_scheduled_at q) st (q_attempts q) (q_last_attempt_at q)
    (q_error_msg q) (q_created_at q).
Definition set_error_msg (e : string) (q : QueueItem) : QueueItem :=
  mkQueueItem (q_id q) (q_item_id q) (q_type q) (q_channel_id q)
    (q_scheduled_at q) (q_status q) (q_attempts q) (q_last_attempt_at q)
    (Some e) (q_created_at q).
Definition set_last_attempt_at (t : Z) (q : QueueItem) : QueueItem :=
  mkQueueItem (q_id q) (q_item_id q) (q_type q) (q_channel_id q)
    (q_scheduled_at q) (q_status q) (q_attempts q) (Some t)
    (q_error_msg q) (q_created_at q).
Definition incr_attempts (q : QueueItem) : QueueItem :=
  mkQueueItem (q_id q) (q_item_id q) (q_type q) (q_channel_id q)
    (q_scheduled_at q) (q_status q) (q_attempts q + 1)
    (q_last_attempt_at q) (q_error_msg q) (q_created_at q).

(** [_get_setting]: the value of the row with this key, [None] without
    such a row. *)
Definition _get_setting (key : string) (s : Store) : option string :=
  mjoin (settings s !! key).

(** [bool(x)] / [if x:] on an optional string *)
Definition truthy_opt (o : option string) : bool :=
  match o with Some v => PyStr.truthy v | None => false end.

(** The dictionary built from a row of [items] for the publisher. *)
Definition item_post_dict `{TextLib} (item : Item) : PostDict :=
  {| pd_id := Some (i_id item);
     pd_title := i_title item;
     pd_summary := i_summary item;
     pd_content := i_content item;
     pd_link := i_link item;
     pd_image_url := i_image_url item;
     pd_hashtags := i_tags item;
     pd_word_count :=
       Some match i_content item with
            | Some c => if PyStr.truthy c then py_split_len c else 0
            | None => 0
            end;
     pd_lang := Some "ru";
     pd_feed_id := None |}.

(** The dictionary of [_send_to_moderation]: the same, with the feed. *)
Definition item_preview_dict `{TextLib} (item : Item) : PostDict :=
  let d := item_post_dict item in
  mkPostDict (pd_id d) (pd_title d) (pd_summary d) (pd_content d)
    (pd_link d) (pd_image_url d) (pd_hashtags d) (pd_word_count d)
    (pd_lang d) (Some (i_feed_id item)).

(** [db.query(Item).filter(Item.feed_id == fid, Item.guid == g).first()] *)
Definition find_item (fid : Z) (g : string) (s : Store) : option Item :=
  head (List.filter
          (fun it => (i_feed_id it =? fid) && String.eqb (i_guid it) g)
          (items s)).

(** [db.query(Item).filter(Item.id == id).first()] *)
Definition find_item_by_id (id : Z) (s : Store) : option Item :=
  head (List.filter (fun it => i_id it =? id) (items s)).

Section Scheduler.
Context `{TextLib} `{FeedLib} `{Telegram}.
Variable cfg : Settings.

Definition _mark_feed_error (now : Z) (feed : Feed) (error_msg : string)
    (s : Store) : Store * list Event :=
  (update_feed
     (mkFeed (f_id feed) (f_url feed) (f_enabled feed) (f_last_ok_at feed)
             (Some now) (Some error_msg)) s,
   [EvLog ERROR ("Feed " +:+ f_url feed +:+ " error: " +:+ error_msg)]).

Definition _send_to_moderation (item : Item) (s : Store) : list Event :=
  match admin_ids cfg with
  | [] => [EvLog WARNING "No admin IDs configured for moderation"]
  | admins =>
      [EvModerationPreview (item_preview_dict item) admins;
       EvLog INFO "Sent item to moderation"]
  end.

Definition _add_to_queue (now : Z) (item : Item) (pub_type : string)
    (scheduled_at : option Z) (s : Store) : Store * list Event :=
  (set_queue
     (queue s ++
        [ {| q_id := next_id (q_id <$> queue s);
             q_item_id := i_id item;
             q_type := pub_type;
             q_channel_id := None;
             q_scheduled_at := scheduled_at;
             q_status := "pending";
             q_attempts := 0;
             q_last_attempt_at := None;
             q_error_msg := None;
             q_created_at := now |} ]) s,
   [EvLog INFO "Added item to queue"]).

(** The [Item(...)] constructed from the normalized dictionary.
    [normalized_item['content_hash']] raises [KeyError] when the key is
    missing. *)
Definition new_db_item (now : Z) (feed : Feed) (normalized : ItemDict)
    (s : Store) : result Item :=
  match d_content_hash normalized with
  | None => Raise "'content_hash'"
  | Some h =>
      Ok {| i_id := next_id (i_id <$> items s);
            i_feed_id := f_id feed;
            i_guid := d_guid normalized;
            i_title := d_title normalized;
            i_link := d_link normalized;
            i_published_at := d_published_at normalized;
            i_content_hash := h;
            i_has_media := truthy_opt (d_image_url normalized);
            i_summary := Some (d_summary normalized);
            i_content := Some (d_content normalized);
            i_image_url := d_image_url normalized;
            i_tags := default [] (d_hashtags normalized);
            i_created_at := now |}
  end.

(** One iteration of the loop over the fetched items: the new store, the
    events, and whether [new_items_count] was incremented. *)
Definition ingest_entry (now : Z) (feed : Feed) (feed_item : FeedItem)
    (s : Store) : Store * list Event * bool :=
  match find_item (f_id feed) (guid feed_item) s with
  | Some _ => (s, [], false)
  | None =>
      let item_dict := set_feed_id (f_id feed) (to_dict feed_item) in
      let normalized_item := normalize_item cfg item_dict in
      match new_db_item now feed normalized_item s with
      | Raise e =>
          (s, [EvLog ERROR ("Error processing item from "
                            +:+ f_url feed +:+ ": " +:+ e)], false)
      | Ok db_item =>
          let s := set_items (items s ++ [db_item]) s in
          if bool_decide (_get_setting "moderation_enabled" s
                          = Some "true")
          then (s, _send_to_moderation db_item s, true)
          else let '(s, evs) := _add_to_queue now db_item "post" None s in
               (s, evs, true)
      end
  end.

Fixpoint ingest_entries (now : Z) (feed : Feed) (l : list FeedItem)
    (s : Store) : Store * list Event * Z :=
  match l with
  | [] => (s, [], 0)
  | feed_item :: rest =>
      let '(s1, evs1, added) := ingest_entry now feed feed_item s in
      let '(s2, evs2, n) := ingest_entries now feed rest s1 in
      (s2, evs1 ++ evs2, (if added then 1 else 0) + n)
  end.

Definition _poll_single_feed (now : Z) (http : HttpOutcome) (feed : Feed)
    (s : Store) : Store * list Event :=
  let '(success, fetched, error) := fetch_feed now (f_url feed) http in
  if negb success then _mark_feed_error now feed error s
  else
    let '(s, evs, new_items_count) := ingest_entries now feed fetched s in
    let s := update_feed
               (mkFeed (f_id feed) (f_url feed) (f_enabled feed)
                       (Some now) None None) s in
    (s, evs ++ if new_items_count >? 0
               then [EvLog INFO ("Added " +:+ str_of_int new_items_count
                                 +:+ " new items from " +:+ f_url feed)]
               else []).

(** The number of rows of [items] that a poll adds. *)
Definition new_entries (before after : Store) : Z :=
  Z.of_nat (length (items after)) - Z.of_nat (length (items before)).

(** *** Queue draining *)

(** The rows that the drain query returns: [status == "pending"] and
    [scheduled_at] null or not after [now], at most ten of them.  The
    query has no [order_by]; rows come in row order. *)
Definition is_due (now : Z) (q : QueueItem) : bool :=
  String.eqb (q_status q) "pending"
  && match q_scheduled_at q with
     | None => true
     | Some t => t <=? now
     end.

Definition pending_items (now : Z) (s : Store) : list QueueItem :=
  take 10 (List.filter (is_due now) (queue s)).

(** The versions of the row that [_process_queue_item] commits, in
    order, with the store as the publisher leaves it and the events. *)
Definition queue_item_commits (now : Z) (queue_item : QueueItem)
    (s : Store) : list QueueItem * Store * list Event :=
  match find_item_by_id (q_item_id queue_item) s with
  | None =>
      ([set_error_msg "Item not found" (set_status "failed" queue_item)],
       s, [EvLog ERROR "Item not found"])
  | Some item =>
      let processing :=
        set_last_attempt_at now (set_status "processing" queue_item) in
      let failed e :=
        incr_attempts (set_error_msg e (set_status "failed" processing)) in
      let default_channel := _get_setting "default_channel" s in
      if String.eqb (q_type queue_item) "post" then
        match default_channel with
        | Some channel =>
            if PyStr.truthy channel then
              let '((success, error, _), s', evs) :=
                publish_post now (item_post_dict item) channel s in
              if success
              then ([processing; set_status "completed" processing], s',
                    evs ++ [EvLog INFO "Published post"])
              else ([processing;
                     failed ("Failed to publish post: " +:+ error)], s',
                    evs ++ [EvLog ERROR "Error processing queue item"])
            else ([processing; failed "No default channel configured"],
                  s, [EvLog ERROR "Error processing queue item"])
        | None => ([processing; failed "No default channel configured"],
                   s, [EvLog ERROR "Error processing queue item"])
        end
      else if String.eqb (q_type queue_item) "story" then
        ([processing;
          set_error_msg "Story publication requires admin context"
            (set_status "failed" processing)],
         s, [EvLog WARNING "Skipping story - no admin context"])
      else ([processing; processing], s, [])
  end.

Definition _process_queue_item (now : Z) (queue_item : QueueItem)
    (s : Store) : Store * list Event :=
  let '(commits, s', evs) := queue_item_commits now queue_item s in
  (update_queue_item (List.last commits queue_item) s', evs).

Fixpoint process_batch (now : Z) (batch : list QueueItem) (s : Store)
  : Store * list Event :=
  match batch with
  | [] => (s, [])
  | queue_item :: rest =>
      let '(s1, evs1) := _process_queue_item now queue_item s in
      let '(s2, evs2) := process_batch now rest s1 in
      (s2, evs1 ++ evs2)
  end.

Definition _process_queue (now : Z) (s : Store) : Store * list Event :=
  match pending_items now s with
  | [] => (s, [])
  | batch =>
      let '(s', evs) := process_batch now batch s in
      (s', EvLog INFO "Processing queue items" :: evs)
  end.

(** The selection rule in the words of the specification: no due row
    that is left out became due before a row that is taken.  A row is
    due since its [scheduled_at], or since its creation without one. *)
Definition due_since (q : QueueItem) : Z :=
  default (q_created_at q) (q_scheduled_at q).

Definition oldest_due_first (now : Z) (s : Store)
    (batch : list QueueItem) : Prop :=
  forall taken left_out,
    taken ∈ batch ->
    left_out ∈ queue s -> is_due now left_out = true ->
    left_out ∉ batch ->
    due_since taken <= due_since left_out.


(** The states of a row while [_process_queue_item] works on it. *)
Definition processing_of (now : Z) (q : QueueItem) : QueueItem :=
  set_last_attempt_at now (set_status "processing" q).
Definition failed_of (now : Z) (e : string) (q : QueueItem) : QueueItem :=
  incr_attempts (set_error_msg e (set_status "failed" (processing_of now q))).
Definition story_failed_of (now : Z) (q : QueueItem) : QueueItem :=
  set_error_msg "Story publication requires admin context"
    (set_status "failed" (processing_of now q)).

End Scheduler.

(** ** Notions used in the statements about polling *)

(** The identity of an item within the store: feed and GUID. *)
Definition item_key (it : Item) : Z * string := (i_feed_id it, i_guid it).

(** Two raw entries that differ at most in their publication date (the
    HTML fallback stamps its entries with the time of the fetch). *)
Definition erase_date (it : FeedItem) : FeedItem :=
  mkFeedItem (guid it) (title it) (link it) None (summary it) (content it)
             (image_url it) (tags it) (author it) (feed_url it)
             (feed_title it).

Definition same_entry (x y : FeedItem) : Prop := erase_date x = erase_date y.

Definition same_fetch (r1 r2 : FetchResult) : Prop :=
  fetch_success r1 = fetch_success r2
  /\ fetch_error r1 = fetch_error r2
  /\ Forall2 same_entry (fetch_items r1) (fetch_items r2).

Definition same_result {A} (R : A -> A -> Prop) (r1 r2 : result A) : Prop :=
  match r1, r2 with
  | Ok a, Ok b => R a b
  | Raise e1, Raise e2 => e1 = e2
  | _, _ => False
  end.

(** The fingerprint that normalization yields for a raw entry, if it gets
    that far. *)
Definition fingerprint_of `{TextLib} (x : FeedItem) : option string :=
  match _normalize_title (title x), _normalize_summary (summary x),
        _normalize_content (content x) with
  | Ok t, Ok s, Ok c => Some (hash_content (t +:+ s +:+ c))
  | _, _, _ => None
  end.

(** An item of this feed with this GUID is in the store. *)
Definition known (fid : Z) (g : string) (s : Store) : Prop :=
  exists it, it ∈ items s /\ i_feed_id it = fid /\ i_guid it = g.

(** The queue entry that ingestion creates for an item. *)
Definition created_for (it : Item) (q : QueueItem) : Prop :=
  q_item_id q = i_id it /\ q_status q = "pending" /\ q_type q = "post"
  /\ q_attempts q = 0 /\ q_scheduled_at q = None.

(** ** Digest and retention ([src/scheduler.py], continued) *)

(** Values of mapped columns. *)
Inductive Value : Type :=
| VNull
| VInt (n : Z)
| VBool (b : bool)
| VStr (s : string).

Definition opt_value {A} (f : A -> Value) (o : option A) : Value :=
  match o with Some a => f a | None => VNull end.

(** [Item.<name>] for the name of a column, and [None] for a name that
    is not one, where [order_by(Item.<name>.desc())] cannot be built. *)
Definition Item_getattr (name : string) : option (Item -> Value) :=
  if String.eqb name "id" then Some (fun it => VInt (i_id it))
  else if String.eqb name "feed_id" then Some (fun it => VInt (i_feed_id it))
  else if String.eqb name "guid" then Some (fun it => VStr (i_guid it))
  else if String.eqb name "title" then Some (fun it => VStr (i_title it))
  else if String.eqb name "link" then Some (fun it => VStr (i_link it))
  else if String.eqb name "published_at"
  then Some (fun it => opt_value VInt (i_published_at it))
  else if String.eqb name "content_hash"
  then Some (fun it => VStr (i_content_hash it))
  else if String.eqb name "has_media"
  then Some (fun it => VBool (i_has_media it))
  else if String.eqb name "summary"
  then Some (fun it => opt_value VStr (i_summary it))
  else if String.eqb name "content"
  then Some (fun it => opt_value VStr (i_content it))
  else if String.eqb name "image_url"
  then Some (fun it => opt_value VStr (i_image_url it))
  else if String.eqb name "tags"
  then Some (fun it => VStr (String.concat "," (i_tags it)))
  else if String.eqb name "created_at"
  then Some (fun it => VInt (i_created_at it))
  else None.

(** Column order of the engine: NULL first, then by value. *)
Definition value_leb (a b : Value) : bool :=
  match a, b with
  | VNull, _ => true
  | _, VNull => false
  | VInt x, VInt y => x <=? y
  | VBool x, VBool y => implb x y
  | VStr x, VStr y => String.leb x y
  | VInt _, _ => true
  | _, VInt _ => false
  | VBool _, _ => true
  | _, VBool _ => false
  end.

(** [order_by(column.desc())]: stable insertion into descending order. *)
Fixpoint insert_desc (key : Item -> Value) (x : Item) (l : list Item)
  : list Item :=
  match l with
  | [] => [x]
  | y :: rest =>
      if value_leb (key y) (key x) && negb (value_leb (key x) (key y))
      then x :: l
      else y :: insert_desc key x rest
  end.

Definition order_by_desc (key : Item -> Value) (l : list Item) : list Item :=
  foldr (fun x acc => insert_desc key x acc) [] l.

Definition one_day : Z := 86400.

Inductive Table : Type := TItems | TQueue | TPublishes.

(** The operations of the retention cycle that reach the engine: the three
    queries, and the [DELETE]s of each table flushed by [db.commit()]. *)
Inductive DbOp : Type :=
| OpQuery (t : Table)
| OpDelete (t : Table).

(** The statements of one retention cycle, in program order. *)
Definition cleanup_ops : list DbOp :=
  [ OpQuery TItems; OpQuery TQueue; OpQuery TPublishes;
    OpDelete TItems; OpDelete TQueue; OpDelete TPublishes ].

#[global] Instance Table_eq_dec : EqDecision Table.
Proof. solve_decision. Defined.
#[global] Instance DbOp_eq_dec : EqDecision DbOp.
Proof. solve_decision. Defined.

Section Cycles.
Context `{Telegram}.
Variable cfg : Settings.

(** The items that qualify for the digest: created within the trailing
    24 hours. *)
Definition digest_window (now : Z) (s : Store) : list Item :=
  List.filter (fun it => now - one_day <=? i_created_at it) (items s).

(** [summary[:100] + "..." if len(summary) > 100 else summary] *)
Definition digest_line (i : Z) (item : Item) : string :=
  str_of_int i +:+ ". [" +:+ i_title item +:+ "](" +:+ i_link item +:+ ")"
  +:+ nl +:+
  match i_summary item with
  | Some sm =>
      if PyStr.truthy sm
      then "   " +:+ ellipsize 100 100 sm +:+ nl
      else ""
  | None => ""
  end +:+ nl.

Fixpoint digest_lines (i : Z) (l : list Item) : string :=
  match l with
  | [] => ""
  | item :: rest => digest_line i item +:+ digest_lines (i + 1) rest
  end.

Definition digest_dict (digest_text : string) : PostDict :=
  {| pd_id := None;
     pd_title := "Дайджест";
     pd_summary := Some digest_text;
     pd_content := None;
     pd_link := "";
     pd_image_url := None;
     pd_hashtags := [];
     pd_word_count := None;
     pd_lang := None;
     pd_feed_id := None |}.

(** The [try] body of [_create_digest], for a class whose attributes are
    given by [getattr]. *)
Definition create_digest_body (getattr : string -> option (Item -> Value))
    (now : Z) (s : Store) : result (Store * list Event) :=
  match getattr "word_count" with
  | None => Raise "type object 'Item' has no attribute 'word_count'"
  | Some word_count =>
      let top_items :=
        take 10 (order_by_desc word_count (digest_window now s)) in
      match top_items with
      | [] => Ok (s, [EvLog INFO "No items for digest"])
      | _ =>
          let digest_text :=
            "📰 *Дайджест за последние 24 часа*" +:+ nl +:+ nl
            +:+ digest_lines 1 top_items in
          match _get_setting "default_channel" s with
          | Some channel =>
              if PyStr.truthy channel then
                let '((success, error, _), s', evs) :=
                  publish_post now (digest_dict digest_text) channel s in
                Ok (s', evs ++
                        [if success
                         then EvLog INFO "Published digest"
                         else EvLog ERROR ("Failed to publish digest: "
                                           +:+ error)])
              else Ok (s, [EvLog WARNING "No default channel for digest"])
          | None => Ok (s, [EvLog WARNING "No default channel for digest"])
          end
      end
  end.

Definition create_digest_with (getattr : string -> option (Item -> Value))
    (now : Z) (s : Store) : Store * list Event :=
  match create_digest_body getattr now s with
  | Ok r => r
  | Raise e => (s, [EvLog ERROR ("Error creating digest: " +:+ e)])
  end.

Definition _create_digest (now : Z) (s : Store) : Store * list Event :=
  create_digest_with Item_getattr now s.

(** *** Retention *)

Definition thirty_days : Z := 30 * one_day.
Definition seven_days : Z := 7 * one_day.

Definition is_old_item (now : Z) (it : Item) : bool :=
  i_created_at it <? now - thirty_days.

Definition is_old_queue_item (now : Z) (q : QueueItem) : bool :=
  (q_created_at q <? now - seven_days)
  && (String.eqb (q_status q) "completed"
      || String.eqb (q_status q) "failed").

Definition is_old_publish (now : Z) (p : Publish) : bool :=
  p_posted_at p <? now - thirty_days.

(** A statement that reaches the engine raises when the engine fails on
    it. *)
Definition engine {A} (faulty : DbOp -> bool) (op : DbOp) (a : A)
  : result A :=
  if faulty op then Raise "database error" else Ok a.

(** What the single [db.commit()] writes when every [DELETE] goes
    through: the rows marked with [db.delete], and with each deleted
    item its queue entries and publications (the [delete-orphan]
    cascade of the [Item] relationships). *)
Definition purged (now : Z) (s : Store) : Store :=
  let gone := i_id <$> List.filter (is_old_item now) (items s) in
  let orphan id := existsb (Z.eqb id) gone in
  mkStore (feeds s)
    (List.filter (fun it => negb (is_old_item now it)) (items s))
    (List.filter (fun q => negb (is_old_queue_item now q)
                           && negb (orphan (q_item_id q))) (queue s))
    (List.filter (fun p => negb (is_old_publish now p)
                           && negb (orphan (p_item_id p))) (publishes s))
    (settings s).

(** The [try] body of [_cleanup_old_data]: three queries whose rows are
    marked for deletion in the session, then one commit. *)
Definition cleanup_body (faulty : DbOp -> bool) (now : Z) (s : Store)
  : result Store :=
  old_items ← engine faulty (OpQuery TItems)
                (List.filter (is_old_item now) (items s));
  old_queue_items ← engine faulty (OpQuery TQueue)
                      (List.filter (is_old_queue_item now) (queue s));
  old_publishes ← engine faulty (OpQuery TPublishes)
                    (List.filter (is_old_publish now) (publishes s));
  _ ← engine faulty (OpDelete TItems) old_items;
  _ ← engine faulty (OpDelete TQueue) old_queue_items;
  _ ← engine faulty (OpDelete TPublishes) old_publishes;
  Ok (purged now s).

Definition _cleanup_old_data (faulty : DbOp -> bool) (now : Z) (s : Store)
  : Store * list Event :=
  match cleanup_body faulty now s with
  | Ok s' => (s', [EvLog INFO "Cleaned up old data"])
  | Raise e => (s, [EvLog ERROR ("Error cleaning up old data: " +:+ e)])
  end.

End Cycles.

(** ** Library instances for the examples

    [plain_text] is what the text libraries compute on plain ASCII text that
    has no markup, no quotes or dashes to fix, single spaces between words
    and no sentence punctuation; the examples below stay inside that
    fragment. *)

Module Examples.

Fixpoint count_chars (p : ascii -> bool) (s : string) : Z :=
  match s with
  | EmptyString => 0
  | String c s' => (if p c then 1 else 0) + count_chars p s'
  end.

Definition is_lower_latin (c : ascii) : bool :=
  (97 <=? PyStr.byte_of c) && (PyStr.byte_of c <=? 122).

Definition is_word_char (c : ascii) : bool :=
  let b := PyStr.byte_of c in
  ((48 <=? b) && (b <=? 57)) || ((65 <=? b) && (b <=? 90))
  || ((97 <=? b) && (b <=? 122)) || (b =? 95).

(** The number of maximal runs of word characters. *)
Fixpoint count_words (in_word : bool) (s : string) : Z :=
  match s with
  | EmptyString => 0
  | String c s' =>
      if is_word_char c
      then (if in_word then 0 else 1) + count_words true s'
      else count_words false s'
  end.

Definition lower_char (c : ascii) : ascii :=
  if (65 <=? PyStr.byte_of c) && (PyStr.byte_of c <=? 90)
  then ascii_of_N (Z.to_N (PyStr.byte_of c + 32))
  else c.

Fixpoint ascii_lower (s : string) : string :=
  match s with
  | EmptyString => EmptyString
  | String c s' => String (lower_char c) (ascii_lower s')
  end.

(** The part of [s] before the first [stop]. *)
Fixpoint until (stop : ascii) (s : string) : string :=
  match s with
  | EmptyString => EmptyString
  | String c s' => if Ascii.eqb c stop then EmptyString
                   else String c (until stop s')
  end.

(** The network location of [scheme://netloc/path]. *)
Fixpoint netloc_of (s : string) : string :=
  match s with
  | String "/" (String "/" rest) => until "/" rest
  | String _ s' => netloc_of s'
  | EmptyString => EmptyString
  end.

Definition plain_text : TextLib :=
  {| soup_get_text := fun s => Ok s;
     soup_markdown := fun s => Ok s;
     re_sub := fun _ _ s => s;
     re_split := fun _ s => [s];
     re_count := fun p s =>
       if String.eqb p "[a-z]" then count_chars is_lower_latin s
       else if String.eqb p "\b\w+\b" then count_words false s
       else 0;
     py_strip := fun s => s;
     py_lower := ascii_lower;
     py_split_len := count_words false;
     urlparse_netloc := fun url => Ok (netloc_of url);
     utm_rewrite := fun cfg url =>
       Ok (url +:+ "?utm_source=" +:+ utm_source cfg
               +:+ "&utm_medium=" +:+ utm_medium cfg
               +:+ "&utm_campaign=" +:+ utm_campaign cfg);
     strip_tracking := fun url => Ok url |}.

Definition entry (g t l sm c : string) : FeedItem :=
  {| guid := g; title := t; link := l; published_at := None;
     summary := sm; content := c; image_url := None; tags := [];
     author := ""; feed_url := ""; feed_title := "" |}.

(** A feed library given by what feedparser, json and readability
    return and by the matches of each selector; tree nodes are numbers
    and node [n] has text [texts n]. *)
Definition feed_lib (xml : string -> result XmlFeed)
    (js : string -> result JsonDoc)
    (rd : string -> result (string * string))
    (matches : string -> list nat) (texts : nat -> string) : FeedLib :=
  {| feedparser_parse := xml;
     json_loads := js;
     readability := rd;
     Tag := nat;
     html_parse := fun _ => Ok 0%nat;
     select := fun _ selector => matches selector;
     get_text := texts;
     find_og_image := fun _ => None;
     find_img_src := fun _ => None;
     urljoin := fun base l => base +:+ l;
     py_hash := fun s => s |}.

(** A well-formed RSS document without any item: feedparser reports no
    error and no entries, json rejects it, readability extracts an empty
    article and no selector matches. *)
Definition empty_rss : string :=
  "<rss version='2.0'><channel><title>Empty</title></channel></rss>".

Definition empty_rss_lib : FeedLib :=
  feed_lib
    (fun _ => Ok {| bozo := false; bozo_exception := "";
                    xf_title := "Empty"; entries := [] |})
    (fun _ => Raise "Expecting value: line 1 column 1 (char 0)")
    (fun _ => Ok ("Empty", "<html><body></body></html>"))
    (fun _ => [])
    (fun _ => "Empty").

Definition no_feeds : FeedLib :=
  feed_lib (fun _ => Raise "not a feed") (fun _ => Raise "not json")
           (fun _ => Raise "Document is empty") (fun _ => [])
           (fun _ => "").

(** A publisher whose every delivery goes through. *)
Definition reliable : Telegram := {| send_post := fun _ _ => Sent "1" |}.


Definition store (its : list Item) (qs : list QueueItem)
    (ps : list Publish) (kv : list (string * option string)) : Store :=
  mkStore [] its qs ps (list_to_map kv).

Definition item (id created : Z) : Item :=
  {| i_id := id; i_feed_id := 1; i_guid := "g"; i_title := "t";
     i_link := "http://a.example/1"; i_published_at := None;
     i_content_hash := hash_content "t"; i_has_media := false;
     i_summary := Some "s"; i_content := Some "c"; i_image_url := None;
     i_tags := []; i_created_at := created |}.

Definition queue_item (id item_id : Z) (type status : string)
    (scheduled : option Z) (attempts created : Z) : QueueItem :=
  {| q_id := id; q_item_id := item_id; q_type := type;
     q_channel_id := None; q_scheduled_at := scheduled;
     q_status := status; q_attempts := attempts;
     q_last_attempt_at := None; q_error_msg := None;
     q_created_at := created |}.

Definition publication (id item_id posted : Z) : Publish :=
  {| p_id := id; p_item_id := item_id; p_target := "@channel";
     p_type := "post"; p_message_id := Some "1"; p_posted_at := posted |}.

Definition day : Z := 86400.


(** Ten posts delayed by 100 seconds at time 0, then one post delayed
    by 40 seconds at time 10. *)
Definition delayed_queue : list QueueItem :=
  ((fun id => queue_item id id "post" "pending" (Some 100) 0 0)
     <$> [1; 2; 3; 4; 5; 6; 7; 8; 9; 10])
  ++ [queue_item 11 11 "post" "pending" (Some 50) 0 10].

Definition xml_entry (id t : string) : XmlEntry :=
  {| e_id := Some id; e_guid := None;
     e_link := Some ("http://a.example/" +:+ id);
     e_title := t; e_summary := "summary"; e_author := "";
     e_date := None; e_content := "body"; e_image := None;
     e_tags := [] |}.

(** A feed with the entries [abc] and [def]. *)
Definition two_entries : FeedLib :=
  feed_lib
    (fun _ => Ok {| bozo := false; bozo_exception := "";
                    xf_title := "A"; 
                    entries := [xml_entry "abc" "first";
                                xml_entry "def" "second"] |})
    (fun _ => Raise "Expecting value: line 1 column 1 (char 0)")
    (fun _ => Raise "Document is empty")
    (fun _ => [])
    (fun _ => "").

Definition feed_a : Feed :=
  mkFeed 1 "http://a.example/rss" true None None None.

Definition rss_response : HttpOutcome :=
  HttpResponse 200 "OK" "<rss>...</rss>" "application/rss+xml".

(** A stand-in for [f"{hash(s)}"] under the hash seed [seed]: a keyed
    polynomial hash of the bytes, printed in decimal. *)
Definition seeded_hash (seed : Z) (s : string) : string :=
  str_of_int (foldl (fun h b => (h * 1000003 + b) mod 2 ^ 61) seed
                    (PyStr.encode s)).

(** An RSS feed whose only item has a title and a description, and
    neither [guid] nor [link]:
    [<item><title>Hello</title><description>World</description></item>]. *)
Definition title_only (seed : Z) : FeedLib :=
  restarted
    (feed_lib
       (fun _ => Ok {| bozo := false; bozo_exception := "";
                       xf_title := "A";
                       entries :=
                         [ {| e_id := None; e_guid := None; e_link := None;
                              e_title := "Hello"; e_summary := "World";
                              e_author := ""; e_date := None;
                              e_content := "World"; e_image := None;
                              e_tags := [] |} ] |})
       (fun _ => Raise "Expecting value: line 1 column 1 (char 0)")
       (fun _ => Raise "Document is empty")
       (fun _ => [])
       (fun _ => ""))
    (seeded_hash seed).

(** The attributes of a class [Item] that has the [word_count] column
    which the digest query orders by. *)
Definition Item_with_word_count (name : string) : option (Item -> Value) :=
  if String.eqb name "word_count"
  then Some (fun it => VInt (match i_content it with
                             | Some c => count_words false c
                             | None => 0
                             end))
  else Item_getattr name.

(** A page that is no feed: feedparser flags it, json rejects it. *)
Definition page_lib (title body : string) (matches : string -> list nat)
    (texts : nat -> string) : FeedLib :=
  feed_lib
    (fun _ => Ok {| bozo := true; bozo_exception := "syntax error";
                    xf_title := ""; entries := [] |})
    (fun _ => Raise "Expecting value: line 1 column 1 (char 0)")
    (fun _ => Ok (title, body))
    matches texts.

End Examples.


(** * Further functions of the sources

    The definitions below embed functions of [src/security.py],
    [src/normalizer.py], [src/ingest.py], [src/scheduler.py],
    [src/publisher.py] and [src/bot.py] that the development above does
    not need, with the same conventions. *)

(** ** More of Python's [str] *)

Module PySeq.

(** [s[n:]] for [n >= 0]: what follows the first [n] code points. *)
Fixpoint py_drop (n : nat) (s : string) : string :=
  match s with
  | EmptyString => EmptyString
  | String c s' =>
      if PyStr.is_continuation c then py_drop n s'
      else match n with
           | O => s
           | S n' => py_drop n' s'
           end
  end.

(** [s.split(sep)] for a one-character [sep]: the pieces between the
    occurrences of [sep], one more than there are occurrences. *)
Fixpoint split (sep : ascii) (s : string) : list string :=
  match s with
  | EmptyString => [EmptyString]
  | String c s' =>
      if Ascii.eqb c sep then EmptyString :: split sep s'
      else match split sep s' with
           | piece :: pieces => String c piece :: pieces
           | [] => [String c EmptyString]
           end
  end.

(** [re.sub('[...]', repl, s)] for a class of ASCII characters and a
    one-character replacement. *)
Fixpoint sub_class (class : ascii -> bool) (repl : ascii) (s : string)
  : string :=
  match s with
  | EmptyString => EmptyString
  | String c s' =>
      String (if class c then repl else c) (sub_class class repl s')
  end.

End PySeq.

(** [int(s)] on a string, where [Raise] is [ValueError]. *)
Class Builtins : Type :=
  { py_int : string -> result Z }.

(** ** [src/security.py], continued *)

(** The character class of [sanitize_filename]. *)
Definition unsafe_chars : list ascii :=
  [ "<"; ">"; ":"; ascii_of_nat 34; "/"; "\"; "|"; "?"; "*" ]%char.

Definition is_unsafe (c : ascii) : bool :=
  existsb (Ascii.eqb c) unsafe_chars.

(** [SecurityManager.sanitize_filename] *)
Definition sanitize_filename (filename : string) : string :=
  let sanitized := PySeq.sub_class is_unsafe "_" filename in
  if PyStr.py_len sanitized >? 255
  then PyStr.py_prefix 255 sanitized
  else sanitized.

(** [SecurityManager.validate_token] *)
Definition validate_token `{Builtins} (token : string) : bool :=
  if negb (PyStr.truthy token) then false
  else
    match PySeq.split ":" token with
    | [bot_id; secret] =>
        match py_int bot_id with
        | Ok _ => 0 <? PyStr.py_len secret
        | Raise _ => false
        end
    | _ => false
    end.

(** ** [src/normalizer.py], continued *)

(** [ContentNormalizer.create_story_template] *)
Definition create_story_template (item : ItemDict) : string :=
  let title := ellipsize 50 47 (d_title item) in
  let summary := ellipsize 100 97 (d_summary item) in
  title +:+ nl +:+ nl +:+ summary.

(** ** Notions used in the statements about stored entries *)

(** Two raw entries that agree on everything but the feed's own tags, the
    author, and the URL and title of the feed they were found in. *)
Definition same_payload (x y : FeedItem) : Prop :=
  guid x = guid y /\ title x = title y /\ link x = link y
  /\ published_at x = published_at y /\ summary x = summary y
  /\ content x = content y /\ image_url x = image_url y.

(** ** An instance for the HTML fallback *)

Module Regions.

(** A hundred characters of boilerplate that open every post of a page. *)
Definition boilerplate : string :=
  "Posted by the editorial team in the news section of our site. All rights reserved. Read more below. ".

End Regions.

(** ** Notions used in the statements about retention *)

(** Referential integrity of the store: every queue entry and every
    publication belongs to an item of [items]. *)
Definition references_items (s : Store) : Prop :=
  (forall q, q ∈ queue s -> q_item_id q ∈ i_id <$> items s)
  /\ (forall p, p ∈ publishes s -> p_item_id p ∈ i_id <$> items s).
(** * Theorems *)

(** ** SHA-256 agrees with the FIPS 180-4 test vectors *)

Example sha256_abc :
  SHA256.hexdigest (PyStr.encode "abc")
  = "ba7816bf8f01cfea414140de5dae2223b00361a396177a9cb410ff61f20015ad".
Proof. vm_compute. reflexivity. Qed.

Example sha256_empty :
  SHA256.hexdigest []
  = "e3b0c44298fc1c149afbf4c8996fb92427ae41e4649b934ca495991b7852b855".
Proof. vm_compute. reflexivity. Qed.

Example sha256_two_blocks :
  SHA256.hexdigest
    (PyStr.encode "abcdbcdecdefdefgefghfghighijhijkijkljklmklmnlmnomnopnopq")
  = "248d6a61d20638b8e5c026930c3e6039a33ce45964ff2167f6ecedd419db06c1".
Proof. vm_compute. reflexivity. Qed.

(** ** Normalizer: the content fingerprint *)

Section NormalizerFacts.
Context `{TextLib}.
Variable cfg : Settings.

Lemma hexdigest_length (msg : list Z) :
  String.length (SHA256.hexdigest msg) = 64%nat.
Proof. reflexivity. Qed.

Lemma hash_content_length (content : string) :
  String.length (hash_content content) = 64%nat.
Proof. apply hexdigest_length. Qed.

Lemma nibble_range (i x : Z) : 0 <= SHA256.nibble i x < 16.
Proof.
  unfold SHA256.nibble. change 15 with (Z.ones 4).
  rewrite Z.land_ones by lia. apply Z.mod_pos_bound. lia.
Qed.

Lemma hex_digit_is_hex (n : Z) :
  0 <= n < 16 -> SHA256.is_hex_digit (SHA256.hex_digit n) = true.
Proof.
  intros Hn. unfold SHA256.is_hex_digit, SHA256.hex_digit.
  rewrite N_ascii_embedding by (destruct (n <? 10); lia).
  rewrite Z2N.id by (destruct (n <? 10); lia).
  destruct (Z.ltb_spec n 10); cbv zeta.
  - apply orb_true_iff. left. apply andb_true_iff. split; lia.
  - apply orb_true_iff. right. apply andb_true_iff. split; lia.
Qed.

Lemma hex8_hex (x : Z) (tail : string) :
  SHA256.all_chars SHA256.is_hex_digit tail = true ->
  SHA256.all_chars SHA256.is_hex_digit (SHA256.hex8 x tail) = true.
Proof.
  intros Ht. unfold SHA256.hex8. cbn [SHA256.all_chars].
  rewrite !hex_digit_is_hex by apply nibble_range. exact Ht.
Qed.

Lemma hash_content_hex (content : string) :
  SHA256.all_chars SHA256.is_hex_digit (hash_content content) = true.
Proof.
  unfold hash_content, SHA256.hexdigest. do 8 apply hex8_hex. reflexivity.
Qed.

(** [normalize_item] either stops in one of the three text steps, before
    the hash is computed, or goes on to store the hash of the three
    normalized texts. *)
Lemma normalize_item_cases (d : ItemDict) :
  (d_content_hash (normalize_item cfg d) = d_content_hash d
   /\ d_guid (normalize_item cfg d) = d_guid d)
  \/ exists t s c,
       _normalize_title (d_title d) = Ok t
       /\ _normalize_summary (d_summary d) = Ok s
       /\ _normalize_content (d_content d) = Ok c
       /\ d_title (normalize_item cfg d) = t
       /\ d_summary (normalize_item cfg d) = s
       /\ d_content (normalize_item cfg d) = c
       /\ d_guid (normalize_item cfg d) = d_guid d
       /\ d_content_hash (normalize_item cfg d)
          = Some (hash_content (t +:+ s +:+ c)).
Proof.
  unfold normalize_item; cbn [run_try].
  destruct (_normalize_title (d_title d)) as [t|e] eqn:Et; cbn;
    [|left; done].
  destruct (_normalize_summary (d_summary d)) as [s|e] eqn:Es; cbn;
    [|left; done].
  destruct (_normalize_content (d_content d)) as [c|e] eqn:Ec; cbn;
    [|left; done].
  right. exists t, s, c.
  destruct (_count_words _) as [w|e]; cbn; repeat split; done.
Qed.

(** C6.  Two raw entries, of any feeds, whose normalized title, summary
    and body concatenate to the same bytes get the same content
    fingerprint: the fingerprint is the SHA-256 hex digest (64
    characters) of that concatenation and of nothing else. *)
Theorem content_fingerprint_deterministic
    (fid1 fid2 : Z) (e1 e2 : FeedItem) (t1 s1 c1 t2 s2 c2 : string) :
  _normalize_title (title e1) = Ok t1 ->
  _normalize_summary (summary e1) = Ok s1 ->
  _normalize_content (content e1) = Ok c1 ->
  _normalize_title (title e2) = Ok t2 ->
  _normalize_summary (summary e2) = Ok s2 ->
  _normalize_content (content e2) = Ok c2 ->
  t1 +:+ s1 +:+ c1 = t2 +:+ s2 +:+ c2 ->
  let n1 := normalize_item cfg (set_feed_id fid1 (to_dict e1)) in
  let n2 := normalize_item cfg (set_feed_id fid2 (to_dict e2)) in
  d_content_hash n1 = d_content_hash n2
  /\ d_content_hash n1
     = Some (SHA256.hexdigest (PyStr.encode (t1 +:+ s1 +:+ c1)))
  /\ content_for_hash n1 = t1 +:+ s1 +:+ c1
  /\ (forall h, d_content_hash n1 = Some h ->
                String.length h = 64%nat
                /\ SHA256.all_chars SHA256.is_hex_digit h = true).
Proof.
  intros Ht1 Hs1 Hc1 Ht2 Hs2 Hc2 Heq n1 n2.
  assert (Hn1 : d_content_hash n1 = Some (hash_content (t1 +:+ s1 +:+ c1))
                /\ content_for_hash n1 = t1 +:+ s1 +:+ c1).
  { destruct (normalize_item_cases (set_feed_id fid1 (to_dict e1)))
      as [[Hh _]|(t & s & c & Ht & Hs & Hc & Et & Es & Ec & _ & Hh)].
    - exfalso. revert Hh. unfold normalize_item; cbn [run_try]. cbn.
      rewrite Ht1; cbn. rewrite Hs1; cbn. rewrite Hc1; cbn.
      destruct (_count_words _); cbn; discriminate.
    - cbn in Ht, Hs, Hc.
      assert (t = t1) as -> by congruence.
      assert (s = s1) as -> by congruence.
      assert (c = c1) as -> by congruence.
      split; [exact Hh|]. unfold content_for_hash, n1.
      by rewrite Et, Es, Ec. }
  assert (Hn2 : d_content_hash n2
                = Some (hash_content (t2 +:+ s2 +:+ c2))).
  { destruct (normalize_item_cases (set_feed_id fid2 (to_dict e2)))
      as [[Hh _]|(t & s & c & Ht & Hs & Hc & _ & _ & _ & _ & Hh)].
    - exfalso. revert Hh. unfold normalize_item; cbn [run_try]. cbn.
      rewrite Ht2; cbn. rewrite Hs2; cbn. rewrite Hc2; cbn.
      destruct (_count_words _); cbn; discriminate.
    - cbn in Ht, Hs, Hc.
      assert (t = t2) as -> by congruence.
      assert (s = s2) as -> by congruence.
      assert (c = c2) as -> by congruence.
      exact Hh. }
  destruct Hn1 as [Hh1 Hc]. split; [|split; [|split]].
  - by rewrite Hh1, Hn2, Heq.
  - exact Hh1.
  - exact Hc.
  - intros h Hh. rewrite Hh1 in Hh. injection Hh as <-.
    split; [apply hash_content_length | apply hash_content_hex].
Qed.

End NormalizerFacts.

(** Two entries of different feeds, with different GUIDs and links, whose
    texts split differently into title, summary and body but concatenate to
    the same bytes. *)
Lemma content_fingerprint_deterministic_witness :
  let H := Examples.plain_text in
  let e1 := Examples.entry "g1" "ab" "http://a.example/1" "c" "d" in
  let e2 := Examples.entry "g2" "a" "http://b.example/2" "bc" "d" in
  d_content_hash (normalize_item default_settings (set_feed_id 1 (to_dict e1)))
  = d_content_hash (normalize_item default_settings (set_feed_id 2 (to_dict e2)))
  /\ d_content_hash (normalize_item default_settings (set_feed_id 1 (to_dict e1)))
     = Some "88d4266fd4e6338d13b845fcf289579d209c897823b9217da3e161936f031589".
Proof.
  intros H e1 e2.
  destruct (content_fingerprint_deterministic (H := H) default_settings
              1 2 e1 e2 "ab" "c" "d" "a" "bc" "d"
              eq_refl eq_refl eq_refl eq_refl eq_refl eq_refl eq_refl)
    as (Heq & Hh & _).
  split; [exact Heq|]. rewrite Hh. vm_compute. reflexivity.
Defined.

(** ** Normalizer: hashtags *)

(** C10.  The generated list holds at most five hashtags; it is the first
    five of the keyword tags followed by the domain tag and the language
    tag, so the latter two only fill the places the keyword tags leave, and
    an item matching five categories loses both. *)
Theorem hashtags_capped :
  (forall (L : TextLib) (item : ItemDict),
     let text := py_lower (d_title item +:+ " " +:+ d_summary item
                           +:+ " " +:+ d_content item) in
     (length (_generate_hashtags item) <= 5)%nat
     /\ _generate_hashtags item
        = take 5 (keyword_tags text)
          ++ take (5 - length (keyword_tags text))
                  (domain_tags (d_link item) ++ lang_tags (d_lang item)))
  /\ (let L := Examples.plain_text in
      let item :=
        to_dict (Examples.entry "g" "tech ai telegram coding crypto"
                                "https://example.com/post" "" "") in
      domain_tags (d_link item) = ["#example_com"]
      /\ lang_tags (d_lang item) = ["#русский"]
      /\ _generate_hashtags item
         = ["#технологии"; "#ai"; "#telegram"; "#программирование";
            "#криптовалюта"]).
Proof.
  split.
  - intros L item text. unfold _generate_hashtags. fold text. split.
    + rewrite length_take. lia.
    + rewrite <- (assoc_L (++)). apply take_app.
  - vm_compute. done.
Qed.

(** ** The format cascade *)

Section IngesterFacts.
Context `{TextLib} `{FeedLib}.

Lemma collect_length {A B} (f : A -> result B) (l : list A) (ys : list B) :
  collect f l = Ok ys -> length ys = length l.
Proof.
  revert ys. induction l as [|x l IH]; intros ys; cbn.
  - by intros [= <-].
  - destruct (f x) as [y|e]; cbn; [|discriminate].
    destruct (collect f l) as [zs|e]; cbn; [|discriminate].
    intros [= <-]. cbn. f_equal. by apply IH.
Qed.

Lemma xml_failure_no_items (content url : string) :
  fetch_success (_parse_xml_feed content url) = false ->
  fetch_items (_parse_xml_feed content url) = [].
Proof.
  unfold _parse_xml_feed.
  destruct (feedparser_parse content) as [feed|e]; [|done].
  destruct (bozo feed); [done|].
  by destruct (collect _ _).
Qed.

Lemma json_failure_no_items (content url : string) :
  fetch_success (_parse_json_feed content url) = false ->
  fetch_items (_parse_json_feed content url) = [].
Proof.
  unfold _parse_json_feed.
  destruct (json_loads content) as [[|ft es]|e]; [done| |done].
  by destruct (collect _ _).
Qed.

Lemma html_failure_no_items (now : Z) (content url : string) :
  fetch_success (_parse_html_fallback now content url) = false ->
  fetch_items (_parse_html_fallback now content url) = [].
Proof.
  unfold _parse_html_fallback. by destruct (html_fallback_items _ _ _).
Qed.

Lemma fetch_failure_no_items (now : Z) (url : string) (http : HttpOutcome) :
  fetch_success (fetch_feed now url http) = false ->
  fetch_items (fetch_feed now url http) = [].
Proof.
  destruct http as [| e | status rs c t]; [done|done|].
  unfold fetch_feed.
  destruct (negb (status =? 200)); [done|].
  destruct (PyStr.contains "json" _ || _).
  { apply json_failure_no_items. }
  destruct (PyStr.contains "xml" _ || _ || _).
  { apply xml_failure_no_items. }
  destruct (fetch_success (_parse_xml_feed c url)) eqn:E1.
  { intros E. rewrite E in E1. discriminate. }
  destruct (fetch_success (_parse_json_feed c url)) eqn:E2.
  { intros E. rewrite E in E2. discriminate. }
  apply html_failure_no_items.
Qed.

(** C4, as the code has it.  With a status of 200 and a declared content
    type that selects no parser, [fetch_feed] returns the result of the
    first parser, in the order XML, JSON, HTML fallback, that reports
    success -- whether or not it found any item; and a result that
    reports failure, whatever the response, carries no item. *)
Theorem fetch_feed_cascade (now : Z) (url reason content ct : string) :
  PyStr.contains "json" (py_lower ct) || PyStr.endswith ".json" url
    = false ->
  PyStr.contains "xml" (py_lower ct) || PyStr.contains "rss" (py_lower ct)
    || PyStr.contains "atom" (py_lower ct) = false ->
  let r := fetch_feed now url (HttpResponse 200 reason content ct) in
  let xml := _parse_xml_feed content url in
  let json := _parse_json_feed content url in
  let html := _parse_html_fallback now content url in
  (fetch_success xml = true -> r = xml)
  /\ (fetch_success xml = false -> fetch_success json = true -> r = json)
  /\ (fetch_success xml = false -> fetch_success json = false -> r = html)
  /\ (forall http,
        fetch_success (fetch_feed now url http) = false ->
        fetch_items (fetch_feed now url http) = []).
Proof.
  intros Hj Hx r xml json html.
  assert (Hr : r = if fetch_success xml then xml
                   else if fetch_success json then json else html).
  { unfold r, fetch_feed. cbn [Z.eqb negb]. rewrite Hj, Hx. done. }
  repeat split.
  - intros E. by rewrite Hr, E.
  - intros E1 E2. by rewrite Hr, E1, E2.
  - intros E1 E2. by rewrite Hr, E1, E2.
  - intros http. apply fetch_failure_no_items.
Qed.

End IngesterFacts.

Lemma fetch_feed_cascade_witness :
  let T := Examples.plain_text in
  let F := Examples.empty_rss_lib in
  fetch_feed 0 "http://feeds.example/empty"
             (HttpResponse 200 "OK" Examples.empty_rss "text/plain")
  = _parse_xml_feed Examples.empty_rss "http://feeds.example/empty".
Proof.
  intros T F.
  apply (fetch_feed_cascade (H := T) (H0 := F) 0 "http://feeds.example/empty"
           "OK" Examples.empty_rss "text/plain" eq_refl eq_refl).
  reflexivity.
Defined.

(** C4 as stated fails: an RSS document without items, served as
    [text/plain], makes the XML parser report success with no item; the
    cascade stops at that parser, and [fetch_feed] succeeds with an empty
    sequence. *)
Lemma fetch_feed_empty_success :
  let T := Examples.plain_text in
  let F := Examples.empty_rss_lib in
  let url := "http://feeds.example/empty" in
  let r := fetch_feed 0 url
             (HttpResponse 200 "OK" Examples.empty_rss "text/plain") in
  r = (true, [], "")
  /\ r = _parse_xml_feed Examples.empty_rss url
  /\ fetch_success r = true
  /\ fetch_items r = [].
Proof. vm_compute. done. Qed.

(** ** The HTML fallback *)

Section HtmlFallbackFacts.
Context `{TextLib} `{FeedLib}.

Lemma find_articles_none (soup : Tag) (sels : list string) :
  (forall selector, selector ∈ sels -> select soup selector = []) ->
  find_articles soup sels = [].
Proof.
  induction sels as [|selector sels IH]; intros Hnone; cbn; [done|].
  rewrite (Hnone selector) by apply list_elem_of_here.
  apply IH. intros sel' Hin. apply Hnone. by apply list_elem_of_further.
Qed.

Lemma html_fallback_at_most_ten (now : Z) (content url : string) :
  (length (fetch_items (_parse_html_fallback now content url)) <= 10)%nat.
Proof.
  unfold _parse_html_fallback, html_fallback_items, fetch_items.
  destruct (readability content) as [[title body]|e];
    cbn -[find_articles selectors take]; [|lia].
  destruct (html_parse content) as [soup|e];
    cbn -[find_articles selectors take]; [|lia].
  destruct (find_articles soup selectors) as [|a articles].
  - destruct (page_item _ _ _ _ _); cbn; lia.
  - destruct (collect _ _) as [items|e] eqn:Ec; cbn; [|lia].
    apply collect_length in Ec. rewrite Ec, length_take. lia.
Qed.

(** C9.  On a page that the HTML libraries process without raising and
    on which no article selector matches, the fallback succeeds with
    exactly one entry, whose link is the page URL; and whatever the
    page, regions found or not, it never returns more than ten
    entries. *)
Theorem html_fallback_single_entry
    (now : Z) (page url page_title body t sm ct : string) (soup : Tag) :
  readability page = Ok (page_title, body) ->
  html_parse page = Ok soup ->
  (forall selector, selector ∈ selectors -> select soup selector = []) ->
  title_or_netloc page_title url = Ok t ->
  _clean_text (PyStr.py_prefix 200 body) = Ok sm ->
  _clean_text body = Ok ct ->
  (exists item,
      _parse_html_fallback now page url = (true, [item], "")
      /\ link item = url
      /\ guid item = _generate_guid soup url
      /\ title item = t /\ summary item = sm /\ content item = ct)
  /\ (forall page', (length (fetch_items
              (_parse_html_fallback now page' url)) <= 10)%nat).
Proof.
  intros Hrd Hsoup Hnone Ht Hsm Hct. split.
  - unfold _parse_html_fallback, html_fallback_items.
    rewrite Hrd; cbn -[find_articles selectors].
    rewrite Hsoup; cbn -[find_articles selectors].
    rewrite (find_articles_none _ _ Hnone).
    unfold page_item. rewrite Ht; cbn. rewrite Hsm; cbn.
    rewrite Hct; cbn. eexists. split; [reflexivity|]. cbn. done.
  - intros page'. apply html_fallback_at_most_ten.
Qed.

End HtmlFallbackFacts.

(** A page with a title and one paragraph, without article markup. *)
Lemma html_fallback_single_entry_witness :
  let T := Examples.plain_text in
  let F := Examples.page_lib "About us" "We repair bicycles" (fun _ => [])
                             (fun _ => "About us We repair bicycles") in
  exists item,
    _parse_html_fallback 7 "<html>...</html>" "http://shop.example/about"
    = (true, [item], "")
    /\ link item = "http://shop.example/about".
Proof.
  intros T F.
  destruct (html_fallback_single_entry (H := T) (H0 := F) 7
              "<html>...</html>" "http://shop.example/about"
              "About us" "We repair bicycles"
              "About us" "We repair bicycles" "We repair bicycles" 0%nat
              eq_refl eq_refl (fun _ _ => eq_refl) eq_refl eq_refl eq_refl)
    as [(item & Hr & Hl & _) _].
  exists item. split; [exact Hr | exact Hl].
Defined.

(** With fourteen article regions the fallback keeps the first ten. *)
Example html_fallback_fourteen_regions :
  let T := Examples.plain_text in
  let F := Examples.page_lib "Blog" "posts"
             (fun selector => if String.eqb selector ".post"
                              then seq 1 14 else [])
             (fun n => "post") in
  length (fetch_items (_parse_html_fallback 7 "<html>...</html>"
                                            "http://blog.example/"))
  = 10%nat.
Proof. vm_compute. reflexivity. Qed.

(** ** The digest cycle *)

Section DigestFacts.
Context `{Telegram}.

Lemma order_by_desc_nil (key : Item -> Value) : order_by_desc key [] = [].
Proof. reflexivity. Qed.

(** The attributes that [Item_getattr] resolves are the columns of the
    class, and [word_count] is not one of them. *)
Lemma Item_getattr_columns (name : string) :
  is_Some (Item_getattr name) <-> name ∈ Item_columns.
Proof.
  unfold Item_getattr, Item_columns. rewrite list_elem_of_In.
  repeat match goal with
         | |- context [String.eqb name ?k] =>
             destruct (String.eqb_spec name k) as [->|?];
             [split; [intros _; simpl; tauto | intros _; by eexists]|]
         end.
  split.
  - intros [x Hx]. discriminate.
  - simpl. intuition congruence.
Qed.

Lemma Item_has_no_word_count : Item_getattr "word_count" = None.
Proof. reflexivity. Qed.

(** [Item] has no [word_count] attribute: building the digest query
    raises, and the cycle ends in its [except] branch. *)
Lemma create_digest_attribute_error (now : Z) (s : Store) :
  _create_digest now s
  = (s, [EvLog ERROR ("Error creating digest: " +:+
           "type object 'Item' has no attribute 'word_count'")]).
Proof. reflexivity. Qed.

(** The part of the claim that holds: when no item was created in the
    trailing 24 hours, the cycle makes no delivery call and leaves the
    store as it is, for the mapped class as it is and for any other. *)
Lemma digest_without_items_no_delivery (now : Z) (s : Store) :
  digest_window now s = [] ->
  forall getattr,
    (create_digest_with getattr now s).1 = s
    /\ List.filter is_delivery (create_digest_with getattr now s).2 = [].
Proof.
  intros Hwin getattr. unfold create_digest_with, create_digest_body.
  destruct (getattr "word_count") as [word_count|]; [|done].
  rewrite Hwin. done.
Qed.

(** With a class that has the column, a cycle without qualifying items
    takes the early return that the code provides for it: one [INFO]
    record, no call, the store as it was. *)
Lemma digest_noop_with_column (getattr : string -> option (Item -> Value))
    (word_count : Item -> Value) (now : Z) (s : Store) :
  getattr "word_count" = Some word_count ->
  digest_window now s = [] ->
  create_digest_with getattr now s
  = (s, [EvLog INFO "No items for digest"]).
Proof.
  intros Hattr Hwin. unfold create_digest_with, create_digest_body.
  rewrite Hattr, Hwin. done.
Qed.

End DigestFacts.

(** C7.  The code fails the claim.  The store holds one item, two days
    old, so that no item qualifies for the digest.  The cycle does not
    reach its early return for an empty selection: [Item.word_count]
    raises while the query is built, and the cycle ends in its [except]
    branch with an [ERROR] record -- as it does on every store.  The
    same cycle over a class that has the column is the no-op of the
    claim, with the [INFO] record of the early return. *)
Theorem digest_cycle_ends_in_error :
  let P := Examples.reliable in
  let s := Examples.store [Examples.item 1 0] [] []
             [("default_channel", Some "@news")] in
  let now := 2 * Examples.day + 1 in
  digest_window now s = []
  /\ _create_digest now s
     = (s, [EvLog ERROR ("Error creating digest: " +:+
              "type object 'Item' has no attribute 'word_count'")])
  /\ create_digest_with Examples.Item_with_word_count now s
     = (s, [EvLog INFO "No items for digest"]).
Proof. vm_compute. done. Qed.

(** ** The retention cycle *)

Section RetentionFacts.

Lemma cleanup_body_no_fault (faulty : DbOp -> bool) (now : Z) (s : Store) :
  existsb faulty cleanup_ops = false ->
  cleanup_body faulty now s = Ok (purged now s).
Proof.
  cbn. intros Hf. repeat (apply orb_false_elim in Hf as [? Hf]).
  unfold cleanup_body, engine.
  repeat match goal with E : faulty _ = false |- _ => rewrite E; clear E end.
  reflexivity.
Qed.

Lemma cleanup_body_fault (faulty : DbOp -> bool) (now : Z) (s : Store) :
  existsb faulty cleanup_ops = true ->
  cleanup_body faulty now s = Raise "database error".
Proof.
  cbn. unfold cleanup_body, engine.
  repeat (destruct (faulty _); [reflexivity|]; cbn).
  discriminate.
Qed.

(** C8, as the code has it.  The three purges are marked in one session
    and written by one commit: when none of the statements of the cycle
    fails, the old items (with their queue entries and publications),
    the old terminal queue entries and the old publications are all
    gone; when any statement fails, whichever table it touches, the
    store is left exactly as it was, and the failure is logged, not
    raised. *)
Theorem cleanup_all_or_nothing (faulty : DbOp -> bool) (now : Z)
    (s : Store) :
  _cleanup_old_data faulty now s
  = if existsb faulty cleanup_ops
    then (s, [EvLog ERROR ("Error cleaning up old data: " +:+
                           "database error")])
    else (purged now s, [EvLog INFO "Cleaned up old data"]).
Proof.
  unfold _cleanup_old_data.
  destruct (existsb faulty cleanup_ops) eqn:Hf.
  - by rewrite cleanup_body_fault.
  - by rewrite cleanup_body_no_fault.
Qed.

(** What the commit writes. *)
Lemma purged_tables (now : Z) (s : Store) :
  (forall it, it ∈ items (purged now s) <->
              it ∈ items s /\ is_old_item now it = false)
  /\ (forall q, q ∈ queue (purged now s) ->
                q ∈ queue s /\ is_old_queue_item now q = false)
  /\ (forall p, p ∈ publishes (purged now s) ->
                p ∈ publishes s /\ is_old_publish now p = false).
Proof.
  unfold purged; cbn. split; [|split].
  - intros it. rewrite !list_elem_of_In, filter_In, negb_true_iff. done.
  - intros q. rewrite !list_elem_of_In, filter_In, andb_true_iff,
      negb_true_iff. tauto.
  - intros p. rewrite !list_elem_of_In, filter_In, andb_true_iff,
      negb_true_iff. tauto.
Qed.

End RetentionFacts.

(** Without a failure the same store is emptied of all three rows. *)
Example cleanup_without_failure :
  let now := 100 * Examples.day in
  let s := Examples.store
             [Examples.item 1 0]
             [Examples.queue_item 1 1 "post" "completed" None 0 0]
             [Examples.publication 1 1 0] [] in
  let s' := (_cleanup_old_data (fun _ => false) now s).1 in
  items s' = [] /\ queue s' = [] /\ publishes s' = [].
Proof. vm_compute. done. Qed.

(** C8 as stated fails.  The store holds an item, a completed queue entry
    and a publication that are all past their retention age; the query on
    [publishes] fails.  Neither the purge of [items] nor that of [queue]
    takes effect, although both of them would have gone through. *)
Lemma cleanup_failure_blocks_other_purges :
  let now := 100 * Examples.day in
  let s := Examples.store
             [Examples.item 1 0]
             [Examples.queue_item 1 1 "post" "completed" None 0 0]
             [Examples.publication 1 1 0] [] in
  let faulty op := bool_decide (op = OpQuery TPublishes) in
  let s' := (_cleanup_old_data faulty now s).1 in
  items s' = items s /\ queue s' = queue s
  /\ items s <> [] /\ queue s <> []
  /\ items (purged now s) = [] /\ queue (purged now s) = [].
Proof. vm_compute. repeat split; discriminate. Qed.

(** ** The queue-drain cycle *)

Section DrainFacts.
Context `{TextLib} `{Telegram}.

Lemma publish_post_tables (now : Z) (item : PostDict) (channel : string)
    (s : Store) :
  let s' := (publish_post now item channel s).1.2 in
  queue s' = queue s /\ items s' = items s /\ settings s' = settings s
  /\ feeds s' = feeds s.
Proof.
  unfold publish_post, _record_publication.
  destruct (send_post item channel); cbn; [|done|done].
  by destruct (pd_id item).
Qed.

Lemma publish_post_one_delivery (now : Z) (item : PostDict)
    (channel : string) (s : Store) :
  length (List.filter is_delivery (publish_post now item channel s).2)
  = 1%nat.
Proof.
  unfold publish_post, _record_publication.
  destruct (send_post item channel); cbn; [|done|done].
  by destruct (pd_id item).
Qed.

(** The shapes of the commit sequence of one row. *)
Lemma queue_item_commits_cases (now : Z) (q : QueueItem) (s : Store) :
  let commits := (queue_item_commits now q s).1.1 in
  let s' := (queue_item_commits now q s).1.2 in
  let evs := (queue_item_commits now q s).2 in
  queue s' = queue s
  /\ (length (List.filter is_delivery evs) <= 1)%nat
  /\ (commits = [set_error_msg "Item not found" (set_status "failed" q)]
      \/ commits = [processing_of now q;
                    set_status "completed" (processing_of now q)]
      \/ (q_type q = "post"
          /\ exists e, commits = [processing_of now q; failed_of now e q])
      \/ (q_type q = "story"
          /\ commits = [processing_of now q; story_failed_of now q])
      \/ (q_type q <> "post" /\ q_type q <> "story"
          /\ commits = [processing_of now q; processing_of now q])).
Proof.
  unfold queue_item_commits.
  destruct (find_item_by_id (q_item_id q) s) as [item|]; cbn;
    [|repeat split; [lia | by left]].
  fold (processing_of now q).
  destruct (String.eqb (q_type q) "post") eqn:Ep.
  - apply String.eqb_eq in Ep.
    assert (Hno : forall e,
               ([processing_of now q; failed_of now e q]
                = [processing_of now q; failed_of now e q])) by done.
    destruct (_get_setting "default_channel" s) as [channel|]; cbn.
    + destruct (PyStr.truthy channel); cbn.
      * pose proof (publish_post_tables now (item_post_dict item)
                      channel s) as (Hq & _).
        pose proof (publish_post_one_delivery now (item_post_dict item)
                      channel s) as Hd.
        destruct (publish_post now (item_post_dict item) channel s)
          as [[[[success error] mid] s'] evs]; cbn in *.
        destruct success; cbn; rewrite List.filter_app, length_app, Hd;
          cbn; (split; [done|]); (split; [lia|]).
        -- right; left; done.
        -- right; right; left. split; [done|]. eexists; reflexivity.
      * repeat split; [lia|]. right; right; left. split; [done|].
        eexists; reflexivity.
    + repeat split; [lia|]. right; right; left. split; [done|].
      eexists; reflexivity.
  - apply String.eqb_neq in Ep.
    destruct (String.eqb (q_type q) "story") eqn:Es; cbn.
    + apply String.eqb_eq in Es. repeat split; [lia|].
      right; right; right; left. done.
    + apply String.eqb_neq in Es. repeat split; [lia|].
      right; right; right; right. done.
Qed.


Lemma commits_last_id (now : Z) (q : QueueItem) (s : Store) :
  q_id (List.last (queue_item_commits now q s).1.1 q) = q_id q.
Proof.
  destruct (queue_item_commits_cases now q s)
    as (_ & _ & [-> | [-> | [[_ [e ->]] | [[_ ->] | (_ & _ & ->)]]]]);
    reflexivity.
Qed.

(** One row processed: the rows of the queue with another key stay. *)
Lemma process_queue_item_queue (now : Z) (q : QueueItem) (s : Store) :
  queue (_process_queue_item now q s).1
  = (fun r => if q_id r =? q_id q
              then List.last (queue_item_commits now q s).1.1 q else r)
      <$> queue s.
Proof.
  unfold _process_queue_item.
  destruct (queue_item_commits_cases now q s) as (Hq & _).
  pose proof (commits_last_id now q s) as Hid.
  destruct (queue_item_commits now q s) as [[commits s'] evs]; cbn in *.
  by rewrite Hq, Hid.
Qed.

Lemma process_batch_untouched (now : Z) (batch : list QueueItem)
    (s : Store) (r : QueueItem) :
  r ∈ queue s -> q_id r ∉ q_id <$> batch ->
  r ∈ queue (process_batch now batch s).1.
Proof.
  revert s. induction batch as [|q rest IH]; intros s Hin Hid; cbn.
  - done.
  - pose proof (process_queue_item_queue now q s) as Hq.
    destruct (_process_queue_item now q s) as [s1 evs1]; cbn in Hq.
    specialize (IH s1).
    destruct (process_batch now rest s1) as [s2 evs2]; cbn in *.
    apply IH.
    + rewrite Hq. apply list_elem_of_fmap. exists r. split; [|done].
      destruct (q_id r =? q_id q) eqn:E; [|done].
      exfalso. apply Hid. apply Z.eqb_eq in E. rewrite E. left.
    + intros Hr. apply Hid. by right.
Qed.


Lemma process_batch_deliveries (now : Z) (batch : list QueueItem)
    (s : Store) :
  (length (List.filter is_delivery (process_batch now batch s).2)
   <= length batch)%nat.
Proof.
  revert s. induction batch as [|q rest IH]; intros s; cbn; [done|].
  pose proof (queue_item_commits_cases now q s) as (_ & Hd & _).
  unfold _process_queue_item.
  destruct (queue_item_commits now q s) as [[commits s'] evs]; cbn in *.
  specialize (IH (update_queue_item (List.last commits q) s')).
  destruct (process_batch now rest _) as [s2 evs2]; cbn in *.
  rewrite List.filter_app, length_app. lia.
Qed.

Lemma pending_items_due (now : Z) (s : Store) (q : QueueItem) :
  q ∈ pending_items now s -> q ∈ queue s /\ is_due now q = true.
Proof.
  unfold pending_items. intros Hin.
  apply (subseteq_take 10) in Hin.
  apply list_elem_of_In, filter_In in Hin as [Hin Hdue].
  by apply list_elem_of_In in Hin.
Qed.

Lemma process_queue_untouched (now : Z) (s : Store) (r : QueueItem) :
  r ∈ queue s -> q_id r ∉ q_id <$> pending_items now s ->
  r ∈ queue (_process_queue now s).1.
Proof.
  intros Hin Hid. unfold _process_queue.
  destruct (pending_items now s) as [|q batch] eqn:E; [done|].
  pose proof (process_batch_untouched now (q :: batch) s r Hin Hid) as Hr.
  by destruct (process_batch now (q :: batch) s).
Qed.


Lemma process_queue_deliveries (now : Z) (s : Store) :
  (length (List.filter is_delivery (_process_queue now s).2) <= 10)%nat.
Proof.
  unfold _process_queue.
  assert (Hlen : (length (pending_items now s) <= 10)%nat).
  { unfold pending_items. rewrite length_take. lia. }
  destruct (pending_items now s) as [|q batch] eqn:E; [cbn; lia|].
  pose proof (process_batch_deliveries now (q :: batch) s) as Hd.
  destruct (process_batch now (q :: batch) s); cbn in *. lia.
Qed.





(** C5, as the code has it.  A drain cycle takes the rows that are
    [pending] with [scheduled_at] null or not after the current time, in
    row order and not by due time: the batch is the first ten such rows
    of the table.  It works on no row outside the batch and makes at
    most ten delivery calls. *)
Theorem drain_batch_selection (now : Z) (s : Store) :
  let batch := pending_items now s in
  batch = take 10 (List.filter (is_due now) (queue s))
  /\ (length batch <= 10)%nat
  /\ (forall q, q ∈ batch ->
        q ∈ queue s /\ q_status q = "pending"
        /\ (q_scheduled_at q = None
            \/ exists t, q_scheduled_at q = Some t /\ t <= now))
  /\ (forall r, r ∈ queue s -> q_id r ∉ q_id <$> batch ->
        r ∈ queue (_process_queue now s).1)
  /\ (length (List.filter is_delivery (_process_queue now s).2)
      <= 10)%nat.
Proof.
  intros batch. split; [done|]. split.
  { unfold batch, pending_items. rewrite length_take. lia. }
  split; [|split].
  - intros q Hq. apply pending_items_due in Hq as [Hin Hdue].
    split; [done|]. unfold is_due in Hdue.
    apply andb_true_iff in Hdue as [Hst Hsched].
    apply String.eqb_eq in Hst. split; [done|].
    destruct (q_scheduled_at q) as [t|]; [|by left].
    right. exists t. split; [done|]. by apply Z.leb_le.
  - apply process_queue_untouched.
  - apply process_queue_deliveries.
Qed.

End DrainFacts.

(** C5 as stated fails.  Ten posts are delayed until time 100 and an
    eleventh, entered later, until time 50.  At time 200 all eleven are
    due; the batch holds the first ten rows and leaves out the row that
    has been due the longest. *)
Lemma drain_not_oldest_due_first :
  let s := Examples.store [] Examples.delayed_queue [] [] in
  ~ oldest_due_first 200 s (pending_items 200 s).
Proof.
  intros s Hclaim.
  specialize (Hclaim (Examples.queue_item 1 1 "post" "pending" (Some 100) 0 0)
                (Examples.queue_item 11 11 "post" "pending" (Some 50) 0 10)).
  assert (Hle : 100 <= 50); [|lia].
  apply Hclaim.
  - vm_compute. left.
  - vm_compute. do 10 right. left.
  - reflexivity.
  - vm_compute. intros Hin.
    repeat (apply elem_of_cons in Hin as [Hin|Hin]; [discriminate|]).
    by apply elem_of_nil in Hin.
Qed.

(** ** The attempt count of a queue entry *)

Section AttemptFacts.
Context `{TextLib} `{Telegram}.




End AttemptFacts.



(** The branch for stories: a story row (no code path enqueues one) goes
    from [pending] to [processing] to [failed], and the transition from
    [processing] to [failed] leaves its attempt count as it was. *)
Example story_failure_not_counted :
  let T := Examples.plain_text in
  let P := Examples.reliable in
  let q := Examples.queue_item 1 1 "story" "pending" None 0 0 in
  let s := Examples.store [Examples.item 1 0] [q] []
             [("default_channel", Some "@news")] in
  exists a b,
    (queue_item_commits 5 q s).1.1 = [a; b]
    /\ q_status a = "processing" /\ q_status b = "failed"
    /\ q_attempts a = 0 /\ q_attempts b = 0
    /\ queue (_process_queue 5 s).1 = [b].
Proof.
  intros T P q s. eexists _, _. split; [vm_compute; reflexivity|].
  vm_compute. repeat split.
Qed.

(** ** Polling: what the fetcher returns does not depend on the clock,
       except for dates *)

Section FetchClockFacts.
Context `{TextLib} `{FeedLib}.

Lemma same_entry_refl (x : FeedItem) : same_entry x x.
Proof. reflexivity. Qed.

Lemma same_entries_refl (l : list FeedItem) : Forall2 same_entry l l.
Proof. induction l; constructor; [apply same_entry_refl | done]. Qed.

Lemma same_fetch_refl (r : FetchResult) : same_fetch r r.
Proof. repeat split. apply same_entries_refl. Qed.

Lemma collect_same {A} (f g : A -> result FeedItem) (l : list A) :
  (forall a, same_result same_entry (f a) (g a)) ->
  same_result (Forall2 same_entry) (collect f l) (collect g l).
Proof.
  intros Hfg. induction l as [|a l IH]; cbn; [constructor|].
  specialize (Hfg a).
  destruct (f a) as [x|e1], (g a) as [y|e2]; cbn in *; try done.
  destruct (collect f l) as [xs|e1], (collect g l) as [ys|e2];
    cbn in *; try done.
  by constructor.
Qed.

Lemma article_item_same (now1 now2 : Z) (page_title url : string)
    (article : Tag) :
  same_result same_entry (article_item now1 page_title url article)
                         (article_item now2 page_title url article).
Proof.
  unfold article_item.
  destruct (_clean_text (PyStr.py_prefix 100 _)); cbn; [|done].
  destruct (_clean_text (PyStr.py_prefix 200 _)); cbn; [|done].
  destruct (_clean_text (get_text article)); cbn; [|done].
  destruct (title_or_netloc page_title url); cbn; done.
Qed.

Lemma page_item_same (now1 now2 : Z) (page_title body url : string)
    (soup : Tag) :
  same_result same_entry (page_item now1 page_title body url soup)
                         (page_item now2 page_title body url soup).
Proof.
  unfold page_item.
  destruct (title_or_netloc page_title url); cbn; [|done].
  destruct (_clean_text (PyStr.py_prefix 200 _)); cbn; [|done].
  destruct (_clean_text body); cbn; done.
Qed.

Lemma html_fallback_same (now1 now2 : Z) (page url : string) :
  same_fetch (_parse_html_fallback now1 page url)
             (_parse_html_fallback now2 page url).
Proof.
  unfold _parse_html_fallback, html_fallback_items.
  destruct (readability page) as [[page_title body]|e];
    cbn -[find_articles selectors take]; [|apply same_fetch_refl].
  destruct (html_parse page) as [soup|e];
    cbn -[find_articles selectors take]; [|apply same_fetch_refl].
  destruct (find_articles soup selectors) as [|a articles].
  - pose proof (page_item_same now1 now2 page_title body url soup) as Hp.
    destruct (page_item now1 _ _ _ _) as [x|e1],
             (page_item now2 _ _ _ _) as [y|e2]; cbn in *;
      [|done|done|subst; apply same_fetch_refl].
    repeat split; cbn. by constructor.
  - pose proof (collect_same (article_item now1 page_title url)
                  (article_item now2 page_title url)
                  (take 10 (a :: articles))
                  (article_item_same now1 now2 page_title url)) as Hc.
    destruct (collect (article_item now1 _ _) _) as [xs|e1],
             (collect (article_item now2 _ _) _) as [ys|e2];
      cbn in *; [|done|done|subst; apply same_fetch_refl].
    repeat split; cbn. done.
Qed.

Lemma fetch_feed_same (now1 now2 : Z) (url : string) (http : HttpOutcome) :
  same_fetch (fetch_feed now1 url http) (fetch_feed now2 url http).
Proof.
  destruct http as [|e|status reason page ct]; try apply same_fetch_refl.
  unfold fetch_feed.
  destruct (negb (status =? 200)); [apply same_fetch_refl|].
  destruct (PyStr.contains "json" _ || _); [apply same_fetch_refl|].
  destruct (PyStr.contains "xml" _ || _ || _); [apply same_fetch_refl|].
  destruct (fetch_success (_parse_xml_feed page url));
    [apply same_fetch_refl|].
  destruct (fetch_success (_parse_json_feed page url));
    [apply same_fetch_refl|].
  apply html_fallback_same.
Qed.

End FetchClockFacts.

(** ** Polling: the ingest gate *)

Section IngestFacts.
Context `{TextLib}.
Variable cfg : Settings.

Lemma next_id_gt (l : list Z) (x : Z) : x ∈ l -> x < next_id l.
Proof.
  unfold next_id. induction l as [|y l IH]; cbn; intros Hin.
  - by apply elem_of_nil in Hin.
  - apply elem_of_cons in Hin as [->|Hin]; [lia|].
    specialize (IH Hin). lia.
Qed.

Lemma find_item_known (fid : Z) (g : string) (s : Store) :
  is_Some (find_item fid g s) <-> known fid g s.
Proof.
  unfold find_item, known. split.
  - intros [it Hit]. exists it.
    apply head_Some_elem_of, list_elem_of_In, filter_In in Hit
      as [Hin Hk].
    apply andb_true_iff in Hk as [Hf Hg].
    apply Z.eqb_eq in Hf. apply String.eqb_eq in Hg.
    split; [by apply list_elem_of_In | done].
  - intros (it & Hin & Hf & Hg).
    destruct (List.filter _ (items s)) as [|y l] eqn:E; [|by eexists].
    exfalso. assert (Hy : In it (List.filter
        (fun it0 => (i_feed_id it0 =? fid) && String.eqb (i_guid it0) g)
        (items s))).
    { apply filter_In. split; [by apply list_elem_of_In|].
      apply andb_true_iff. split; [by apply Z.eqb_eq|].
      by apply String.eqb_eq. }
    by rewrite E in Hy.
Qed.

Lemma known_mono (fid : Z) (g : string) (s s' : Store) (new : list Item) :
  items s' = items s ++ new -> known fid g s -> known fid g s'.
Proof.
  intros Hs (it & Hin & Hk). exists it. split; [|done].
  rewrite Hs. apply elem_of_app. by left.
Qed.

(** Normalization of a raw entry stores the fingerprint of its three
    normalized texts, or none when one of them cannot be normalized, and
    keeps the GUID. *)
Lemma normalize_raw_entry (fid : Z) (x : FeedItem) :
  d_content_hash (normalize_item cfg (set_feed_id fid (to_dict x)))
  = fingerprint_of x
  /\ d_guid (normalize_item cfg (set_feed_id fid (to_dict x))) = guid x.
Proof.
  unfold fingerprint_of.
  destruct (normalize_item_cases cfg (set_feed_id fid (to_dict x)))
    as [[Hh Hg]|(t & s & c & Ht & Hs & Hc & _ & _ & _ & Hg & Hh)].
  - split; [|exact Hg]. rewrite Hh. cbn.
    revert Hh. unfold normalize_item; cbn [run_try]. cbn.
    destruct (_normalize_title (title x)); cbn; [|done].
    destruct (_normalize_summary (summary x)); cbn; [|done].
    destruct (_normalize_content (content x)); cbn; [|done].
    destruct (_count_words _); cbn; discriminate.
  - cbn in Ht, Hs, Hc. rewrite Ht, Hs, Hc. done.
Qed.

Lemma same_entry_fingerprint (x y : FeedItem) :
  same_entry x y ->
  fingerprint_of x = fingerprint_of y /\ guid x = guid y.
Proof.
  unfold same_entry, erase_date, fingerprint_of. intros [=].
  by repeat match goal with E : _ = _ |- _ => rewrite E; clear E end.
Qed.

(** The three outcomes of one pass through the gate. *)
Lemma ingest_entry_known (now : Z) (feed : Feed) (x : FeedItem)
    (s : Store) :
  known (f_id feed) (guid x) s ->
  ingest_entry cfg now feed x s = (s, [], false).
Proof.
  intros Hk. apply find_item_known in Hk as [it Hit].
  unfold ingest_entry. by rewrite Hit.
Qed.

Lemma ingest_entry_unfit (now : Z) (feed : Feed) (x : FeedItem)
    (s : Store) :
  fingerprint_of x = None ->
  (ingest_entry cfg now feed x s).1.1 = s
  /\ (ingest_entry cfg now feed x s).2 = false.
Proof.
  intros Hf. unfold ingest_entry.
  destruct (find_item (f_id feed) (guid x) s); [done|].
  unfold new_db_item.
  destruct (normalize_raw_entry (f_id feed) x) as [Hh _].
  rewrite Hh, Hf. done.
Qed.

Lemma ingest_entry_new (now : Z) (feed : Feed) (x : FeedItem) (s : Store)
    (h : string) :
  ~ known (f_id feed) (guid x) s ->
  fingerprint_of x = Some h ->
  exists it,
    i_id it = next_id (i_id <$> items s)
    /\ i_feed_id it = f_id feed /\ i_guid it = guid x
    /\ i_content_hash it = h
    /\ ingest_entry cfg now feed x s
       = if bool_decide (_get_setting "moderation_enabled" s
                         = Some "true")
         then (set_items (items s ++ [it]) s,
               _send_to_moderation cfg it
                 (set_items (items s ++ [it]) s), true)
         else ((_add_to_queue now it "post" None
                  (set_items (items s ++ [it]) s)).1,
               (_add_to_queue now it "post" None
                  (set_items (items s ++ [it]) s)).2, true).
Proof.
  intros Hk Hf. unfold ingest_entry.
  destruct (find_item (f_id feed) (guid x) s) as [it|] eqn:Efind.
  { exfalso. apply Hk, find_item_known. by eexists. }
  unfold new_db_item.
  destruct (normalize_raw_entry (f_id feed) x) as [Hh Hg].
  rewrite Hh, Hf. eexists. split; [|split; [|split; [|split]]];
    [| | | |reflexivity]; cbn; try done.
Qed.

End IngestFacts.

Section IngestLoopFacts.
Context `{TextLib}.
Variable cfg : Settings.
Variable now : Z.
Variable feed : Feed.

Abbreviation moderation s := (_get_setting "moderation_enabled" s).

Lemma key_fresh (x : FeedItem) (s : Store) (it : Item) :
  ~ known (f_id feed) (guid x) s ->
  i_feed_id it = f_id feed -> i_guid it = guid x ->
  item_key it ∉ item_key <$> items s.
Proof.
  intros Hk Hf Hg Hin. apply Hk.
  apply list_elem_of_fmap in Hin as (y & Hy & Hyin).
  unfold item_key in Hy. injection Hy as Hyf Hyg.
  exists y. split; [done|]. split; congruence.
Qed.

(** The loop over the fetched entries. *)
Lemma ingest_entries_spec (l : list FeedItem) (s : Store) :
  let s' := (ingest_entries cfg now feed l s).1.1 in
  let evs := (ingest_entries cfg now feed l s).1.2 in
  let n := (ingest_entries cfg now feed l s).2 in
  settings s' = settings s /\ feeds s' = feeds s
  /\ (forall x, x ∈ l -> fingerprint_of x <> None ->
                known (f_id feed) (guid x) s')
  /\ (NoDup (item_key <$> items s) -> NoDup (item_key <$> items s'))
  /\ exists new_items,
       items s' = items s ++ new_items
       /\ n = Z.of_nat (length new_items)
       /\ NoDup (i_id <$> new_items)
       /\ (forall it old, it ∈ new_items -> old ∈ items s ->
                          i_id old < i_id it)
       /\ (moderation s = Some "true" ->
           queue s' = queue s
           /\ (admin_ids cfg <> [] ->
               forall it, it ∈ new_items ->
                 EvModerationPreview (item_preview_dict it) (admin_ids cfg)
                 ∈ evs))
       /\ (moderation s <> Some "true" ->
           exists new_queue,
             queue s' = queue s ++ new_queue
             /\ Forall2 created_for new_items new_queue).
Proof.
  revert s. induction l as [|x l IH]; intros s; cbn zeta.
  { cbn. repeat split; try done.
    - intros x Hx. by apply elem_of_nil in Hx.
    - exists []. rewrite app_nil_r. repeat split; try done.
      + constructor.
      + intros it old Hit. by apply elem_of_nil in Hit.
      + intros _ it Hit. by apply elem_of_nil in Hit.
      + intros _. exists []. rewrite app_nil_r. split; [done|constructor]. }
  cbn [ingest_entries].
  assert (Hcases : (known (f_id feed) (guid x) s
                    \/ fingerprint_of x = None)
                   \/ ~ (known (f_id feed) (guid x) s
                         \/ fingerprint_of x = None)).
  { destruct (find_item (f_id feed) (guid x) s) as [y|] eqn:Efind.
    - left; left. apply find_item_known. by eexists.
    - destruct (fingerprint_of x) as [h|] eqn:Hf; [|by left; right].
      right. intros [Hk|?]; [|done].
      apply find_item_known in Hk as [y Hy]. congruence. }
  destruct Hcases as [Hskip|Hnew].
  - (* the entry is skipped: the store stays *)
    assert (Hs : (ingest_entry cfg now feed x s).1.1 = s
                 /\ (ingest_entry cfg now feed x s).2 = false).
    { destruct Hskip as [Hk|Hf].
      - by rewrite ingest_entry_known.
      - by apply ingest_entry_unfit. }
    destruct Hs as [Hs1 Hadded].
    destruct (ingest_entry cfg now feed x s) as [[s1 evs1] added];
      cbn in Hs1, Hadded; subst s1 added.
    specialize (IH s).
    destruct (ingest_entries cfg now feed l s) as [[s2 evs2] n2];
      cbn in IH |- *.
    destruct IH as (Hset & Hfeeds & Hcov & Hkeys & new & Hitems & Hn
                    & Hnd & Hlt & Hmod & Hq).
    split; [done|]. split; [done|]. split; [|split; [done|]].
    + intros y Hy Hfit. apply elem_of_cons in Hy as [->|Hy];
        [|by apply Hcov].
      destruct Hskip as [Hk|Hf]; [|done].
      exact (known_mono _ _ s s2 new Hitems Hk).
    + exists new. split; [done|]. split; [lia|]. split; [done|].
      split; [done|]. split; [|done].
      intros Hm. destruct (Hmod Hm) as [Hq1 Hev]. split; [done|].
      intros Hadm it Hit. apply elem_of_app. right. by apply Hev.
  - (* the entry is new *)
    assert (Hk : ~ known (f_id feed) (guid x) s) by tauto.
    destruct (fingerprint_of x) as [h|] eqn:Hf; [|tauto].
    destruct (ingest_entry_new cfg now feed x s h Hk Hf)
      as (it & Hid & Hfid & Hguid & _ & Hstep).
    rewrite Hstep. clear Hstep.
    pose (s0 := set_items (items s ++ [it]) s).
    assert (Hfresh : NoDup (item_key <$> items s) ->
                     NoDup (item_key <$> items s0)).
    { intros Hnd. cbn. rewrite fmap_app. apply NoDup_app.
      split; [done|]. split; [|apply NoDup_singleton].
      intros k Hin Hin'. apply list_elem_of_singleton in Hin' as ->.
      by eapply key_fresh. }
    assert (Hknown : known (f_id feed) (guid x) s0).
    { exists it. split; [|done]. cbn. apply elem_of_app. right. left. }
    assert (Hold : forall old, old ∈ items s -> i_id old < i_id it).
    { intros old Hin. rewrite Hid. apply next_id_gt.
      by apply list_elem_of_fmap_2. }
    fold s0.
    destruct (bool_decide (moderation s = Some "true")) eqn:Emod.
    + apply bool_decide_eq_true in Emod.
      specialize (IH s0).
      destruct (ingest_entries cfg now feed l s0) as [[s2 evs2] n2];
        cbn in IH |- *.
      destruct IH as (Hset & Hfeeds & Hcov & Hkeys & new & Hitems & Hn
                      & Hnd & Hlt & Hmod & Hq).
      split; [done|]. split; [done|]. split; [|split; [tauto|]].
      * intros y Hy Hfit. apply elem_of_cons in Hy as [->|Hy];
          [|by apply Hcov].
        exact (known_mono _ _ s0 s2 new Hitems Hknown).
      * exists (it :: new). split; [by rewrite Hitems; cbn;
                                     rewrite <- app_assoc|].
        split; [cbn; lia|]. split.
        { cbn. apply NoDup_cons. split; [|done].
          intros Hin. apply list_elem_of_fmap in Hin as (y & Hy & Hyin).
          assert (i_id it < i_id y); [|lia].
          apply Hlt; [done|]. cbn. apply elem_of_app. right. left. }
        split.
        { intros y old Hy Hin. apply elem_of_cons in Hy as [->|Hy];
            [by apply Hold|].
          apply Hlt; [done|]. cbn. apply elem_of_app. by left. }
        split; [|done].
        intros _. destruct (Hmod Emod) as [Hq1 Hev]. split; [done|].
        intros Hadm y Hy. apply elem_of_app.
        apply elem_of_cons in Hy as [->|Hy]; [|right; by apply Hev].
        left. unfold _send_to_moderation.
        destruct (admin_ids cfg) as [|a admins]; [done|]. left.
    + apply bool_decide_eq_false in Emod.
      pose (s1 := (_add_to_queue now it "post" None s0).1).
      specialize (IH s1).
      fold s1.
      destruct (ingest_entries cfg now feed l s1) as [[s2 evs2] n2];
        cbn in IH |- *.
      destruct IH as (Hset & Hfeeds & Hcov & Hkeys & new & Hitems & Hn
                      & Hnd & Hlt & Hmod & Hq).
      split; [done|]. split; [done|]. split; [|split; [tauto|]].
      * intros y Hy Hfit. apply elem_of_cons in Hy as [->|Hy];
          [|by apply Hcov].
        exact (known_mono _ _ s0 s2 new Hitems Hknown).
      * exists (it :: new). split; [by rewrite Hitems; cbn;
                                     rewrite <- app_assoc|].
        split; [cbn; lia|]. split.
        { cbn. apply NoDup_cons. split; [|done].
          intros Hin. apply list_elem_of_fmap in Hin as (y & Hy & Hyin).
          assert (i_id it < i_id y); [|lia].
          apply Hlt; [done|]. cbn. apply elem_of_app. right. left. }
        split.
        { intros y old Hy Hin. apply elem_of_cons in Hy as [->|Hy];
            [by apply Hold|].
          apply Hlt; [done|]. cbn. apply elem_of_app. by left. }
        split; [done|].
        intros _. destruct (Hq Emod) as (new_queue & Hq1 & Hall).
        eexists (_ :: new_queue). split.
        { rewrite Hq1. cbn. rewrite <- app_assoc. reflexivity. }
        constructor; [|done]. repeat split.
Qed.

(** When every entry that can be normalized is already in the store, the
    loop changes nothing. *)
Lemma ingest_entries_noop (l : list FeedItem) (s : Store) :
  (forall x, x ∈ l -> fingerprint_of x <> None ->
             known (f_id feed) (guid x) s) ->
  (ingest_entries cfg now feed l s).1.1 = s
  /\ (ingest_entries cfg now feed l s).2 = 0
  /\ List.filter (fun e => match e with
                           | EvModerationPreview _ _ => true
                           | _ => false
                           end)
       (ingest_entries cfg now feed l s).1.2 = [].
Proof.
  induction l as [|x l IH]; intros Hall; cbn; [done|].
  assert (Hs : (ingest_entry cfg now feed x s).1.1 = s
               /\ (ingest_entry cfg now feed x s).2 = false
               /\ List.filter (fun e => match e with
                                        | EvModerationPreview _ _ => true
                                        | _ => false
                                        end)
                    (ingest_entry cfg now feed x s).1.2 = []).
  { destruct (fingerprint_of x) as [h|] eqn:Hf.
    - rewrite ingest_entry_known; [done|].
      apply Hall; [left | by rewrite Hf].
    - destruct (ingest_entry_unfit cfg now feed x s Hf) as [H1 H2].
      split; [done|]. split; [done|].
      unfold ingest_entry. destruct (find_item _ _ _); [done|].
      unfold new_db_item.
      destruct (normalize_raw_entry cfg (f_id feed) x) as [Hh _].
      by rewrite Hh, Hf. }
  destruct Hs as (Hs1 & Hadded & Hev).
  destruct (ingest_entry cfg now feed x s) as [[s1 evs1] added];
    cbn in Hs1, Hadded, Hev; subst s1 added.
  destruct IH as (IH1 & IH2 & IH3).
  { intros y Hy. apply Hall. by right. }
  destruct (ingest_entries cfg now feed l s) as [[s2 evs2] n2];
    cbn in *. subst. rewrite List.filter_app, Hev, IH3. done.
Qed.

End IngestLoopFacts.

(** ** Polling a feed *)

Section PollFacts.
Context `{TextLib} `{FeedLib}.
Variable cfg : Settings.

Abbreviation moderation s := (_get_setting "moderation_enabled" s).

Lemma created_for_other (its : list Item) (qs : list QueueItem) (id : Z) :
  Forall2 created_for its qs -> id ∉ i_id <$> its ->
  List.filter (fun q => q_item_id q =? id) qs = [].
Proof.
  induction 1 as [|it q its qs Hc _ IH]; intros Hid; cbn; [done|].
  destruct Hc as [Hc _]. rewrite Hc.
  destruct (i_id it =? id) eqn:E.
  - exfalso. apply Hid. apply Z.eqb_eq in E. rewrite <- E. left.
  - apply IH. intros Hin. apply Hid. by right.
Qed.

Lemma created_for_exactly_one (its : list Item) (qs : list QueueItem) :
  Forall2 created_for its qs -> NoDup (i_id <$> its) ->
  forall it, it ∈ its ->
    length (List.filter (fun q => q_item_id q =? i_id it) qs) = 1%nat.
Proof.
  induction 1 as [|it0 q its qs Hc Hall IH]; intros Hnd it Hin.
  - by apply elem_of_nil in Hin.
  - cbn in Hnd. apply NoDup_cons in Hnd as [Hfresh Hnd].
    cbn. destruct Hc as [Hc _]. rewrite Hc.
    apply elem_of_cons in Hin as [->|Hin].
    + rewrite Z.eqb_refl. cbn.
      by rewrite (created_for_other its qs (i_id it0) Hall Hfresh).
    + destruct (i_id it0 =? i_id it) eqn:E; [|by apply IH].
      exfalso. apply Hfresh. apply Z.eqb_eq in E. rewrite E.
      by apply list_elem_of_fmap_2.
Qed.

(** C2.  Every entry that a poll ingests is a new row of [items].  With
    [moderation_enabled] set to ['true'] the poll adds nothing to the
    queue and hands each new item to the moderation preview; with
    ['false'] it adds to the queue, for each new item, exactly one entry,
    and that entry is [pending]. *)
Theorem ingestion_routing (now : Z) (http : HttpOutcome) (feed : Feed)
    (s : Store) :
  let s' := (_poll_single_feed cfg now http feed s).1 in
  let evs := (_poll_single_feed cfg now http feed s).2 in
  exists new_items,
    items s' = items s ++ new_items
    /\ NoDup (i_id <$> new_items)
    /\ (moderation s = Some "true" ->
        queue s' = queue s
        /\ (admin_ids cfg <> [] ->
            forall it, it ∈ new_items ->
              EvModerationPreview (item_preview_dict it) (admin_ids cfg)
              ∈ evs))
    /\ (moderation s = Some "false" ->
        exists new_queue,
          queue s' = queue s ++ new_queue
          /\ Forall2 created_for new_items new_queue
          /\ (forall q, q ∈ new_queue -> q_status q = "pending")
          /\ (forall it, it ∈ new_items ->
                length (List.filter (fun q => q_item_id q =? i_id it)
                                    new_queue) = 1%nat)
          /\ ((forall q, q ∈ queue s -> q_item_id q ∈ i_id <$> items s) ->
              forall it, it ∈ new_items ->
                length (List.filter (fun q => q_item_id q =? i_id it)
                                    (queue s')) = 1%nat)).
Proof.
  unfold _poll_single_feed.
  destruct (fetch_feed now (f_url feed) http) as [[success fetched] error].
  destruct success; cbn [negb].
  - pose proof (ingest_entries_spec cfg now feed fetched s) as Hspec.
    destruct (ingest_entries cfg now feed fetched s) as [[s1 evs1] n];
      cbn in Hspec |- *.
    destruct Hspec as (_ & _ & _ & _ & new & Hitems & _ & Hnd & Hlt
                       & Hmod & Hq).
    exists new. split; [done|]. split; [done|]. split.
    + intros Hm. destruct (Hmod Hm) as [Hq1 Hev]. split; [done|].
      intros Hadm it Hit. apply elem_of_app. left. by apply Hev.
    + intros Hm. destruct Hq as (new_queue & Hq1 & Hall).
      { rewrite Hm. discriminate. }
      exists new_queue. split; [done|]. split; [done|]. split; [|split].
      * intros q Hin.
        apply list_elem_of_lookup in Hin as [i Hi].
        destruct (Forall2_lookup_r _ _ _ _ _ Hall Hi)
          as (it & _ & _ & Hst & _). exact Hst.
      * by apply created_for_exactly_one.
      * intros Hfk it Hit. rewrite Hq1, List.filter_app, length_app.
        rewrite (created_for_exactly_one new new_queue Hall Hnd it Hit).
        assert (Hold : List.filter (fun q => q_item_id q =? i_id it)
                                   (queue s) = []); [|by rewrite Hold].
        destruct (List.filter _ (queue s)) as [|q l] eqn:E; [done|].
        exfalso. assert (Hq : In q (List.filter
                     (fun q => q_item_id q =? i_id it) (queue s))).
        { rewrite E. by left. }
        apply filter_In in Hq as [Hq Hk]. apply Z.eqb_eq in Hk.
        apply list_elem_of_In, Hfk, list_elem_of_fmap in Hq
          as (old & Hid & Hold).
        specialize (Hlt it old Hit Hold). lia.
  - exists []. rewrite app_nil_r. cbn. split; [done|].
    split; [constructor|]. split.
    + intros _. split; [done|]. intros _ it Hit.
      by apply elem_of_nil in Hit.
    + intros _. exists []. rewrite app_nil_r. split; [done|].
      split; [constructor|]. split; [|split].
      * intros q Hq. by apply elem_of_nil in Hq.
      * intros it Hit. by apply elem_of_nil in Hit.
      * intros _ it Hit. by apply elem_of_nil in Hit.
Qed.

(** Two polls in a row on the same upstream payload. *)
Lemma poll_twice (now1 now2 : Z) (http : HttpOutcome) (feed : Feed)
    (s : Store) :
  let s1 := (_poll_single_feed cfg now1 http feed s).1 in
  let s2 := (_poll_single_feed cfg now2 http feed s1).1 in
  let evs2 := (_poll_single_feed cfg now2 http feed s1).2 in
  items s2 = items s1
  /\ queue s2 = queue s1
  /\ List.filter (fun e => match e with
                           | EvModerationPreview _ _ => true
                           | _ => false
                           end) evs2 = []
  /\ (NoDup (item_key <$> items s) -> NoDup (item_key <$> items s1)).
Proof.
  cbn zeta. unfold _poll_single_feed.
  destruct (fetch_feed_same now1 now2 (f_url feed) http)
    as (Hsucc & _ & Hsame).
  destruct (fetch_feed now1 (f_url feed) http)
    as [[success fetched1] error1].
  destruct (fetch_feed now2 (f_url feed) http)
    as [[success2 fetched2] error2].
  cbn in Hsucc, Hsame. subst success2.
  destruct success; cbn [negb]; [|done].
  pose proof (ingest_entries_spec cfg now1 feed fetched1 s) as Hspec.
  destruct (ingest_entries cfg now1 feed fetched1 s) as [[sa evs1] n1];
    cbn in Hspec.
  destruct Hspec as (_ & _ & Hcov & Hkeys & _).
  cbn [fst snd].
  set (s1 := update_feed _ sa).
  assert (Hnoop : forall y, y ∈ fetched2 -> fingerprint_of y <> None ->
                            known (f_id feed) (guid y) s1).
  { intros y Hy Hfit.
    apply list_elem_of_lookup in Hy as [i Hi].
    destruct (Forall2_lookup_r _ _ _ _ _ Hsame Hi) as (x & Hx & Hxy).
    apply same_entry_fingerprint in Hxy as [Hf Hg].
    rewrite <- Hg.
    destruct (Hcov x) as (it & Hin & Hk).
    { apply list_elem_of_lookup. by eexists. }
    { by rewrite Hf. }
    exists it. split; [exact Hin | exact Hk]. }
  destruct (ingest_entries_noop cfg now2 feed fetched2 s1 Hnoop)
    as (Hs & Hn & Hev).
  destruct (ingest_entries cfg now2 feed fetched2 s1)
    as [[sb evs2] n2]; cbn in Hs, Hn, Hev. subst sb n2.
  cbn. rewrite List.filter_app, Hev. cbn.
  repeat split. exact Hkeys.
Qed.

(** Within one run of the interpreter, where both polls compute the
    fallback GUID under one hash seed: a feed polled twice with the same
    upstream payload gets no row added to [items] by the second poll
    (and none to the queue, and no preview sent).  The gate skips,
    without touching the store, every raw entry whose (feed, GUID) is
    found among the items; and a poll never makes a (feed, GUID) pair
    occur twice in [items]. *)
Theorem second_poll_adds_nothing (now1 now2 : Z) (http : HttpOutcome)
    (feed : Feed) (s : Store) :
  let s1 := (_poll_single_feed cfg now1 http feed s).1 in
  let s2 := (_poll_single_feed cfg now2 http feed s1).1 in
  let evs2 := (_poll_single_feed cfg now2 http feed s1).2 in
  items s2 = items s1
  /\ new_entries s1 s2 = 0
  /\ queue s2 = queue s1
  /\ List.filter (fun e => match e with
                           | EvModerationPreview _ _ => true
                           | _ => false
                           end) evs2 = []
  /\ (forall now x st,
        known (f_id feed) (guid x) st ->
        ingest_entry cfg now feed x st = (st, [], false))
  /\ (NoDup (item_key <$> items s) -> NoDup (item_key <$> items s1)).
Proof.
  intros s1 s2 evs2.
  destruct (poll_twice now1 now2 http feed s) as (Hitems & Hq & Hev & Hk).
  fold s1 in Hitems, Hq, Hev, Hk. fold s2 in Hitems, Hq. fold evs2 in Hev.
  split; [exact Hitems|]. split.
  { unfold new_entries. rewrite Hitems. lia. }
  split; [exact Hq|]. split; [exact Hev|]. split; [|exact Hk].
  intros now x st. apply ingest_entry_known.
Qed.

End PollFacts.

(** A feed of two entries, polled into an empty store with moderation
    switched off: two items, and one pending queue entry for each. *)
Lemma ingestion_routing_witness :
  let T := Examples.plain_text in
  let F := Examples.two_entries in
  let s := Examples.store [] [] [] [("moderation_enabled", Some "false")] in
  let s' := (_poll_single_feed default_settings 100 Examples.rss_response
                               Examples.feed_a s).1 in
  length (items s') = 2%nat
  /\ Forall2 created_for (items s') (queue s').
Proof.
  intros T F s s'.
  destruct (ingestion_routing (H := T) (H0 := F) default_settings 100
              Examples.rss_response Examples.feed_a s)
    as (new_items & Hitems & _ & _ & Hfalse).
  destruct (Hfalse eq_refl)
    as (new_queue & Hqueue & Hall & _).
  fold s' in Hitems, Hqueue. cbn in Hitems, Hqueue.
  rewrite Hitems, Hqueue. split; [|exact Hall].
  rewrite <- Hitems. vm_compute. reflexivity.
Defined.

(** The same feed with moderation switched on: two items, nothing
    queued. *)
Example ingestion_under_moderation :
  let T := Examples.plain_text in
  let F := Examples.two_entries in
  let s := Examples.store [] [] [] [("moderation_enabled", Some "true")] in
  let s' := (_poll_single_feed default_settings 100 Examples.rss_response
                               Examples.feed_a s).1 in
  length (items s') = 2%nat /\ queue s' = [].
Proof. vm_compute. done. Qed.

(** The feed polled twice in one run: two items after the first poll,
    the same two after the second. *)
Lemma second_poll_adds_nothing_witness :
  let T := Examples.plain_text in
  let F := Examples.two_entries in
  let s := Examples.store [] [] [] [("moderation_enabled", Some "false")] in
  let s1 := (_poll_single_feed default_settings 100 Examples.rss_response
                               Examples.feed_a s).1 in
  let s2 := (_poll_single_feed default_settings 700 Examples.rss_response
                               Examples.feed_a s1).1 in
  items s2 = items s1 /\ length (items s1) = 2%nat
  /\ NoDup (item_key <$> items s1).
Proof.
  intros T F s s1 s2.
  destruct (second_poll_adds_nothing (H := T) (H0 := F) default_settings
              100 700 Examples.rss_response Examples.feed_a s)
    as (Hitems & _ & _ & _ & _ & Hkeys).
  split; [exact Hitems|]. split; [vm_compute; reflexivity|].
  apply Hkeys. cbn. apply NoDup_nil_2.
Defined.

(** Eleven due posts: the batch is the first ten rows, and the eleventh
    row is left as it is. *)
Lemma drain_batch_selection_witness :
  let T := Examples.plain_text in
  let P := Examples.reliable in
  let s := Examples.store [] Examples.delayed_queue [] [] in
  pending_items 200 s = take 10 Examples.delayed_queue
  /\ Examples.queue_item 11 11 "post" "pending" (Some 50) 0 10
     ∈ queue (_process_queue 200 s).1.
Proof.
  intros T P s.
  destruct (drain_batch_selection (H := T) (H0 := P) 200 s)
    as (Hbatch & _ & _ & Hrest & _).
  split; [rewrite Hbatch; vm_compute; reflexivity|].
  apply Hrest.
  - vm_compute. do 10 right. left.
  - vm_compute. intros Hin.
    repeat (apply elem_of_cons in Hin as [Hin|Hin]; [discriminate|]).
    by apply elem_of_nil in Hin.
Defined.

(** C1.  The code fails the claim.  The only item of the feed has a
    title and a description, and neither [guid] nor [link], so that its
    GUID is the fallback [hash(title + link)], which Python salts per
    process.  The feed is polled, the interpreter restarted, and the
    feed polled again with the payload unchanged.  The second poll
    computes another GUID for the same item, the gate finds no item of
    that GUID, and a second row is added to [items] and a second entry
    to the queue.  With the hash seed of the first run kept, the second
    poll adds nothing. *)
Theorem restart_repeats_entry :
  let T := Examples.plain_text in
  let before := Examples.title_only 1 in
  let after := Examples.title_only 2 in
  let s := Examples.store [] [] [] [("moderation_enabled", Some "false")] in
  let poll F now st :=
    (@_poll_single_feed T F default_settings now Examples.rss_response
                        Examples.feed_a st).1 in
  let s1 := poll before 100 s in
  let s2 := poll after 700 s1 in
  after = restarted before (Examples.seeded_hash 2)
  /\ length (items s1) = 1%nat
  /\ new_entries s1 s2 = 1
  /\ length (queue s2) = 2%nat
  /\ (i_title <$> items s2) = ["Hello"; "Hello"]
  /\ (i_guid <$> items s2)
     = [Examples.seeded_hash 1 "Hello"; Examples.seeded_hash 2 "Hello"]
  /\ Examples.seeded_hash 1 "Hello" <> Examples.seeded_hash 2 "Hello"
  /\ (i_content_hash <$> items s2)
     = [hash_content "HelloWorldWorld"; hash_content "HelloWorldWorld"]
  /\ new_entries s1 (poll before 700 s1) = 0.
Proof.
  intros T before after s poll s1 s2.
  split; [reflexivity|].
  repeat (split; [vm_compute; reflexivity|]).
  split; [vm_compute; discriminate|].
  split; vm_compute; reflexivity.
Qed.

(** * Further properties *)

(** ** Code points and slices *)

Lemma py_len_nonneg (s : string) : 0 <= PyStr.py_len s.
Proof.
  induction s as [|c s IH]; cbn; [lia|].
  destruct (PyStr.is_continuation c); lia.
Qed.

Lemma append_cons (c : ascii) (a b : string) :
  String c a +:+ b = String c (a +:+ b).
Proof. reflexivity. Qed.

Lemma py_len_app (a b : string) :
  PyStr.py_len (a +:+ b) = PyStr.py_len a + PyStr.py_len b.
Proof.
  induction a as [|c a IH]; [done|].
  rewrite append_cons. cbn [PyStr.py_len]. rewrite IH. lia.
Qed.

Lemma py_len_prefix (n : nat) (s : string) :
  PyStr.py_len (PyStr.py_prefix n s) = Z.min (Z.of_nat n) (PyStr.py_len s).
Proof.
  revert n. induction s as [|c s IH]; intros n; cbn; [lia|].
  pose proof (py_len_nonneg s).
  destruct (PyStr.is_continuation c) eqn:E.
  - cbn. rewrite E, IH. lia.
  - destruct n as [|n]; cbn; [lia|]. rewrite E, IH. lia.
Qed.

Lemma py_prefix_all (n : nat) (s : string) :
  PyStr.py_len s <= Z.of_nat n -> PyStr.py_prefix n s = s.
Proof.
  revert n. induction s as [|c s IH]; intros n; cbn; [done|].
  pose proof (py_len_nonneg s).
  destruct (PyStr.is_continuation c); intros Hn.
  - f_equal. apply IH. lia.
  - destruct n as [|n]; [lia|]. f_equal. apply IH. lia.
Qed.

Lemma py_prefix_drop (n : nat) (s : string) :
  PyStr.py_prefix n s +:+ PySeq.py_drop n s = s.
Proof.
  revert n. induction s as [|c s IH]; intros n; simpl; [done|].
  destruct (PyStr.is_continuation c).
  - by rewrite append_cons, IH.
  - destruct n as [|n]; [done|]. by rewrite append_cons, IH.
Qed.

Lemma py_len_drop (n : nat) (s : string) :
  PyStr.py_len (PySeq.py_drop n s)
  = Z.max 0 (PyStr.py_len s - Z.of_nat n).
Proof.
  revert n. induction s as [|c s IH]; intros n; cbn; [lia|].
  pose proof (py_len_nonneg s).
  destruct (PyStr.is_continuation c) eqn:E.
  - rewrite IH. lia.
  - destruct n as [|n]; cbn; [rewrite E; lia|]. rewrite IH. lia.
Qed.

Lemma ellipsize_len (limit : Z) (keep : nat) (s : string) :
  PyStr.py_len (ellipsize limit keep s)
  <= Z.max limit (Z.of_nat keep + 3).
Proof.
  unfold ellipsize. destruct (Z.gtb_spec (PyStr.py_len s) limit).
  - rewrite py_len_app, py_len_prefix.
    change (PyStr.py_len "...") with 3. lia.
  - lia.
Qed.

Lemma ellipsize_short (limit : Z) (keep : nat) (s : string) :
  PyStr.py_len s <= limit -> ellipsize limit keep s = s.
Proof.
  unfold ellipsize. intros Hs.
  destruct (Z.gtb_spec (PyStr.py_len s) limit); [lia|done].
Qed.

(** ** Normalizer: length limits *)

Section LengthFacts.
Context `{TextLib}.

(** X1.  Whatever the text libraries return, a normalized summary has at
    most 300 code points and a normalized body at most 2000: the cut to
    [297] (resp. [1997]) code points plus the three dots is the last step
    of both.  A normalized title has at most 200 as long as the
    typography fixes, which come after the cut, do not lengthen it. *)
Theorem normalized_text_bounds (raw_summary raw_content s c : string) :
  _normalize_summary raw_summary = Ok s ->
  _normalize_content raw_content = Ok c ->
  PyStr.py_len s <= 300
  /\ PyStr.py_len c <= 2000
  /\ (forall raw_title t,
        (forall x, PyStr.py_len (_fix_typography x) <= PyStr.py_len x) ->
        _normalize_title raw_title = Ok t -> PyStr.py_len t <= 200).
Proof.
  intros Hs Hc. split; [|split].
  - revert Hs. unfold _normalize_summary.
    destruct (PyStr.truthy raw_summary); [|intros [= <-]; cbn; lia].
    destruct (_remove_html_tags raw_summary) as [x|e]; cbn;
      [|discriminate].
    intros [= <-]. etrans; [apply ellipsize_len|]. lia.
  - revert Hc. unfold _normalize_content.
    destruct (PyStr.truthy raw_content); [|intros [= <-]; cbn; lia].
    destruct (_html_to_markdown raw_content) as [x|e]; cbn;
      [|discriminate].
    intros [= <-]. etrans; [apply ellipsize_len|]. lia.
  - intros raw_title t Hfix. unfold _normalize_title.
    destruct (PyStr.truthy raw_title); [|intros [= <-]; cbn; lia].
    destruct (_remove_html_tags raw_title) as [x|e]; cbn;
      [|discriminate].
    intros [= <-]. etrans; [apply Hfix|].
    etrans; [apply ellipsize_len|]. lia.
Qed.

End LengthFacts.

Lemma normalized_text_bounds_witness :
  PyStr.py_len "Rates rise again" <= 300
  /\ PyStr.py_len "The bank raised its rate" <= 2000.
Proof.
  destruct (normalized_text_bounds (H := Examples.plain_text)
              "Rates rise again" "The bank raised its rate"
              "Rates rise again" "The bank raised its rate"
              eq_refl eq_refl) as (Hs & Hc & _).
  split; [exact Hs | exact Hc].
Defined.

(** X2.  The story text has at most 152 code points: a title of at most
    50, two line breaks, a summary of at most 100; and a title and a
    summary within these limits are not cut. *)
Theorem story_template_bounded (item : ItemDict) :
  PyStr.py_len (create_story_template item) <= 152
  /\ (PyStr.py_len (d_title item) <= 50 ->
      PyStr.py_len (d_summary item) <= 100 ->
      create_story_template item
      = d_title item +:+ nl +:+ nl +:+ d_summary item).
Proof.
  unfold create_story_template. split.
  - rewrite !py_len_app. change (PyStr.py_len nl) with 1.
    pose proof (ellipsize_len 50 47 (d_title item)).
    pose proof (ellipsize_len 100 97 (d_summary item)). lia.
  - intros Ht Hs. by rewrite !ellipsize_short.
Qed.

(** ** [sanitize_filename] *)

Lemma is_unsafe_false (c : ascii) :
  is_unsafe c = false <-> c ∉ unsafe_chars.
Proof.
  unfold is_unsafe. rewrite list_elem_of_In. split.
  - intros Hf Hin. assert (Ht : existsb (Ascii.eqb c) unsafe_chars = true).
    { apply existsb_exists. exists c. split; [done|apply Ascii.eqb_refl]. }
    congruence.
  - intros Hnot. destruct (existsb _ _) eqn:E; [|done].
    apply existsb_exists in E as (x & Hin & Hx).
    apply Ascii.eqb_eq in Hx as ->. done.
Qed.

Lemma unsafe_not_continuation (c : ascii) :
  is_unsafe c = true -> PyStr.is_continuation c = false.
Proof.
  unfold is_unsafe. intros E.
  apply existsb_exists in E as (x & Hin & Hx).
  apply Ascii.eqb_eq in Hx as ->.
  cbn in Hin. intuition (subst; reflexivity).
Qed.

Lemma sub_class_len (s : string) :
  PyStr.py_len (PySeq.sub_class is_unsafe "_" s) = PyStr.py_len s.
Proof.
  induction s as [|c s IH]; [done|].
  cbn [PySeq.sub_class PyStr.py_len]. rewrite IH.
  destruct (is_unsafe c) eqn:E; [|done].
  by rewrite (unsafe_not_continuation c E).
Qed.

Lemma sub_class_safe (s : string) :
  Forall (fun c => c ∉ unsafe_chars)
         (String.list_ascii_of_string (PySeq.sub_class is_unsafe "_" s)).
Proof.
  induction s as [|c s IH]; [constructor|].
  cbn [PySeq.sub_class String.list_ascii_of_string]. constructor; [|done].
  destruct (is_unsafe c) eqn:E.
  - by apply is_unsafe_false.
  - by apply is_unsafe_false.
Qed.

Lemma sub_class_id (s : string) :
  Forall (fun c => c ∉ unsafe_chars) (String.list_ascii_of_string s) ->
  PySeq.sub_class is_unsafe "_" s = s.
Proof.
  induction s as [|c s IH]; [done|].
  cbn [PySeq.sub_class String.list_ascii_of_string].
  intros Hall. apply Forall_cons in Hall as [Hc Hall].
  apply is_unsafe_false in Hc. rewrite Hc. f_equal. by apply IH.
Qed.

Lemma py_prefix_chars (P : ascii -> Prop) (n : nat) (s : string) :
  Forall P (String.list_ascii_of_string s) ->
  Forall P (String.list_ascii_of_string (PyStr.py_prefix n s)).
Proof.
  revert n. induction s as [|c s IH]; intros n; cbn; [done|].
  intros Hall. apply Forall_cons in Hall as [Hc Hall].
  destruct (PyStr.is_continuation c); cbn.
  - constructor; [done|]. by apply IH.
  - destruct n as [|n]; cbn; [constructor|].
    constructor; [done|]. by apply IH.
Qed.

Lemma sanitized_chars_len (filename : string) :
  Forall (fun c => c ∉ unsafe_chars)
         (String.list_ascii_of_string (sanitize_filename filename))
  /\ PyStr.py_len (sanitize_filename filename)
     = Z.min 255 (PyStr.py_len filename).
Proof.
  unfold sanitize_filename. cbv zeta.
  pose proof (sub_class_safe filename) as Hsafe.
  pose proof (sub_class_len filename) as Hlen.
  destruct (Z.gtb_spec (PyStr.py_len (PySeq.sub_class is_unsafe "_"
                                        filename)) 255) as [Hlong|Hshort].
  - split; [by apply py_prefix_chars|].
    rewrite py_len_prefix. lia.
  - split; [done|]. lia.
Qed.

(** X3.  A sanitized file name holds none of the nine characters of
    [unsafe_chars] (angle brackets, colon, double quote, slash,
    backslash, bar, question mark, star), whatever the name it comes
    from, and it has the length of that name cut to 255 code points. *)
Theorem sanitize_filename_safe (filename : string) :
  (forall c, c ∈ unsafe_chars ->
     c ∉ String.list_ascii_of_string (sanitize_filename filename))
  /\ PyStr.py_len (sanitize_filename filename)
     = Z.min 255 (PyStr.py_len filename)
  /\ PyStr.py_len (sanitize_filename filename) <= 255.
Proof.
  destruct (sanitized_chars_len filename) as [Hsafe Hlen].
  split; [|split; [done|lia]].
  intros c Hc Hin. rewrite Forall_forall in Hsafe.
  by apply (Hsafe c).
Qed.

(** X4.  Sanitizing is the identity on a name of at most 255 code points
    that holds none of the nine characters -- a name made of dots, or one
    with control characters, passes as it is -- and sanitizing twice is
    sanitizing once. *)
Theorem sanitize_filename_fixpoint (filename : string) :
  (Forall (fun c => c ∉ unsafe_chars) (String.list_ascii_of_string filename) ->
   PyStr.py_len filename <= 255 ->
   sanitize_filename filename = filename)
  /\ sanitize_filename (sanitize_filename filename)
     = sanitize_filename filename
  /\ sanitize_filename ".." = "..".
Proof.
  assert (Hid : forall name,
             Forall (fun c => c ∉ unsafe_chars) (String.list_ascii_of_string name) ->
             PyStr.py_len name <= 255 -> sanitize_filename name = name).
  { intros name Hsafe Hlen. unfold sanitize_filename. cbv zeta.
    rewrite (sub_class_id name Hsafe).
    destruct (Z.gtb_spec (PyStr.py_len name) 255); [lia|done]. }
  split; [apply Hid|]. split; [|reflexivity].
  destruct (sanitized_chars_len filename) as [Hsafe Hlen].
  apply Hid; [done|lia].
Qed.

(** ** [validate_token] *)

Lemma contains_char_cons (sep c : ascii) (s : string) :
  PyStr.contains (String sep EmptyString) (String c s)
  = Ascii.eqb c sep || PyStr.contains (String sep EmptyString) s.
Proof.
  cbn [PyStr.contains String.prefix].
  destruct (ascii_dec sep c) as [->|Hne].
  - rewrite Ascii.eqb_refl. by destruct s.
  - assert (E : Ascii.eqb c sep = false).
    { apply Ascii.eqb_neq. congruence. }
    by rewrite E.
Qed.

Lemma split_not_nil (sep : ascii) (s : string) : PySeq.split sep s <> [].
Proof.
  induction s as [|c s IH]; cbn; [done|].
  destruct (Ascii.eqb c sep); [done|].
  by destruct (PySeq.split sep s).
Qed.

Lemma split_no_sep (sep : ascii) (a : string) :
  PyStr.contains (String sep EmptyString) a = false ->
  PySeq.split sep a = [a].
Proof.
  induction a as [|c a IH]; [done|].
  rewrite contains_char_cons. intros Hc.
  apply orb_false_elim in Hc as [Hc Ha].
  cbn [PySeq.split]. by rewrite Hc, (IH Ha).
Qed.

Lemma split_app (sep : ascii) (a b : string) :
  PyStr.contains (String sep EmptyString) a = false ->
  PySeq.split sep (a +:+ String sep b) = a :: PySeq.split sep b.
Proof.
  induction a as [|c a IH].
  - intros _. cbn [String.append PySeq.split].
    change ("" +:+ String sep b) with (String sep b).
    cbn [PySeq.split]. by rewrite Ascii.eqb_refl.
  - rewrite contains_char_cons. intros Hc.
    apply orb_false_elim in Hc as [Hc Ha].
    rewrite append_cons. cbn [PySeq.split]. by rewrite Hc, (IH Ha).
Qed.

Lemma split_inv (sep : ascii) (s p : string) (ps : list string) :
  PySeq.split sep s = p :: ps ->
  PyStr.contains (String sep EmptyString) p = false
  /\ ((ps = [] /\ s = p)
      \/ exists rest, s = p +:+ String sep rest
                      /\ PySeq.split sep rest = ps).
Proof.
  revert p ps. induction s as [|c s IH]; intros p ps.
  - cbn. intros [= <- <-]. split; [done|]. by left.
  - cbn [PySeq.split]. destruct (Ascii.eqb c sep) eqn:E.
    + intros [= <- <-]. split; [done|]. right. exists s.
      apply Ascii.eqb_eq in E as ->. done.
    + destruct (PySeq.split sep s) as [|q qs] eqn:Es.
      { by apply split_not_nil in Es. }
      intros [= <- <-]. destruct (IH q qs eq_refl) as [Hq Hs].
      split; [by rewrite contains_char_cons, E, Hq|].
      destruct Hs as [[-> ->]|(rest & -> & Hrest)]; [by left|].
      right. exists rest. by rewrite append_cons.
Qed.

(** X5.  A token is accepted exactly when it reads [id:secret] with one
    colon in all, an [id] that [int] converts and a secret that is not
    empty; nothing else of the secret is looked at. *)
Theorem validate_token_shape `{Builtins} (token : string) :
  validate_token token = true <->
  exists bot_id secret n,
    token = bot_id +:+ ":" +:+ secret
    /\ PyStr.contains ":" bot_id = false
    /\ PyStr.contains ":" secret = false
    /\ py_int bot_id = Ok n
    /\ 0 < PyStr.py_len secret.
Proof.
  unfold validate_token. split.
  - destruct (PyStr.truthy token); cbn [negb]; [|discriminate].
    destruct (PySeq.split ":" token) as [|bot_id [|secret [|x l]]] eqn:Es;
      try discriminate.
    destruct (py_int bot_id) as [n|e] eqn:En; [|discriminate].
    intros Hlen. apply Z.ltb_lt in Hlen.
    apply split_inv in Es as [Hid [[? _]|(rest & -> & Hrest)]];
      [discriminate|].
    apply split_inv in Hrest as [Hsec [[_ ->]|(rest' & _ & Hnil)]].
    + by exists bot_id, secret, n.
    + by apply split_not_nil in Hnil.
  - intros (bot_id & secret & n & -> & Hid & Hsec & Hn & Hlen).
    assert (Ht : PyStr.truthy (bot_id +:+ ":" +:+ secret) = true)
      by (by destruct bot_id).
    rewrite Ht. cbn [negb].
    change (":" +:+ secret) with (String ":" secret).
    rewrite (split_app ":" bot_id secret Hid), (split_no_sep ":" secret Hsec).
    rewrite Hn. by apply Z.ltb_lt.
Qed.

(** ** Normalizer: what normalization leaves alone *)

Section NormalizeFrame.
Context `{TextLib}.
Variable cfg : Settings.

(** X6.  Normalization rewrites the texts, the link and the image of an
    entry and adds hash, hashtags, language and word count; whether it
    runs to its end or stops at a step that raises, it returns the GUID,
    the publication date, the feed's tags, the author, the feed URL and
    title and the feed id as it got them. *)
Theorem normalize_item_keeps_identity (d : ItemDict) :
  d_guid (normalize_item cfg d) = d_guid d
  /\ d_published_at (normalize_item cfg d) = d_published_at d
  /\ d_tags (normalize_item cfg d) = d_tags d
  /\ d_author (normalize_item cfg d) = d_author d
  /\ d_feed_url (normalize_item cfg d) = d_feed_url d
  /\ d_feed_title (normalize_item cfg d) = d_feed_title d
  /\ d_feed_id (normalize_item cfg d) = d_feed_id d.
Proof.
  unfold normalize_item; cbn [run_try].
  destruct (_normalize_title (d_title d)) as [t|e]; cbn; [|done].
  destruct (_normalize_summary (d_summary d)) as [s|e]; cbn; [|done].
  destruct (_normalize_content (d_content d)) as [c|e]; cbn; [|done].
  destruct (_count_words _) as [w|e]; cbn; done.
Qed.

(** X7.  The hashtags are generated before the language is detected: for
    an entry as the fetcher delivers it the language tag is always
    [#русский], whatever language is then detected and stored under
    [lang]. *)
Theorem hashtags_language_tag (fid : Z) (x : FeedItem) (t s c : string) :
  _normalize_title (title x) = Ok t ->
  _normalize_summary (summary x) = Ok s ->
  _normalize_content (content x) = Ok c ->
  let n := normalize_item cfg (set_feed_id fid (to_dict x)) in
  d_hashtags n
  = Some (take 5 (keyword_tags (py_lower (t +:+ " " +:+ s +:+ " " +:+ c))
                  ++ domain_tags (_add_utm_parameters cfg (link x))
                  ++ ["#русский"]))
  /\ d_lang n = Some (_detect_language (t +:+ " " +:+ s)).
Proof.
  intros Ht Hs Hc. unfold normalize_item; cbn [run_try]. cbn.
  rewrite Ht; cbn. rewrite Hs; cbn. rewrite Hc; cbn.
  destruct (_count_words _) as [w|e]; cbn.
  - split; [|done]. unfold _generate_hashtags. cbn.
    by rewrite <- (assoc_L (++)).
  - split; [|done]. unfold _generate_hashtags. cbn.
    by rewrite <- (assoc_L (++)).
Qed.

End NormalizeFrame.

(** An entry in English: [en] is detected, and the language tag is the
    Russian one. *)
Lemma hashtags_language_tag_witness :
  let T := Examples.plain_text in
  let x := Examples.entry "g" "Markets rally" "http://a.example/1"
                          "Stocks rose" "Full report" in
  let n := normalize_item default_settings (set_feed_id 1 (to_dict x)) in
  d_lang n = Some "en"
  /\ d_hashtags n = Some ["#a_example"; "#русский"].
Proof.
  intros T x n.
  destruct (hashtags_language_tag (H := T) default_settings 1 x
              "Markets rally" "Stocks rose" "Full report"
              eq_refl eq_refl eq_refl) as [Htags Hlang].
  fold n in Htags, Hlang. split.
  - rewrite Hlang. vm_compute. reflexivity.
  - rewrite Htags. vm_compute. reflexivity.
Defined.

(** ** Normalizer: the shape of the hashtags *)

Lemma startswith_hash (x : string) :
  PyStr.startswith "#" ("#" +:+ x) = true.
Proof. by destruct x. Qed.

Lemma keyword_tags_of (text : string) (l : list (string * list string)) :
  let tags :=
    flat_map
      (fun '(tag, keywords) =>
         if existsb (fun keyword => PyStr.contains keyword text) keywords
         then ["#" +:+ tag] else [])
      l in
  (tags `sublist_of` ((fun p => "#" +:+ p.1) <$> l))
  /\ Forall (fun h => PyStr.startswith "#" h = true) tags.
Proof.
  induction l as [|[tag keywords] l [IHs IHf]]; cbn.
  - split; constructor.
  - destruct (existsb _ keywords); cbn.
    + split; [by apply sublist_skip|].
      constructor; [apply startswith_hash | exact IHf].
    + split; [by apply sublist_cons|done].
Qed.

Lemma replace_char_absent (a b : ascii) (s : string) :
  a <> b -> a ∉ String.list_ascii_of_string (PyStr.replace_char a b s).
Proof.
  intros Hab. induction s as [|c s IH]; cbn.
  - apply not_elem_of_nil.
  - apply not_elem_of_cons. split; [|done].
    destruct (Ascii.eqb_spec c a); congruence.
Qed.

Lemma replace_char_keeps_absent (a b c : ascii) (s : string) :
  c <> b -> c ∉ String.list_ascii_of_string s ->
  c ∉ String.list_ascii_of_string (PyStr.replace_char a b s).
Proof.
  intros Hcb. induction s as [|x s IH]; cbn; [done|].
  intros Hnot. apply not_elem_of_cons in Hnot as [Hx Hs].
  apply not_elem_of_cons. split; [|by apply IH].
  destruct (Ascii.eqb x a); congruence.
Qed.

(** X8.  Every generated hashtag starts with [#].  The keyword tags come
    in the order of the category dictionary, each category at most once.
    The tag made from the link's domain holds neither a dot nor a
    hyphen. *)
Theorem hashtags_shape `{TextLib} (item : ItemDict) :
  Forall (fun h => PyStr.startswith "#" h = true) (_generate_hashtags item)
  /\ (forall text,
        (keyword_tags text
           `sublist_of` ((fun p => "#" +:+ p.1) <$> common_tags))
        /\ NoDup (keyword_tags text))
  /\ Forall (fun h => ("."%char ∉ String.list_ascii_of_string h)
                      /\ ("-"%char ∉ String.list_ascii_of_string h))
            (domain_tags (d_link item)).
Proof.
  split; [|split].
  - unfold _generate_hashtags. apply Forall_take.
    rewrite !Forall_app. split; [split|].
    + apply keyword_tags_of.
    + unfold domain_tags. destruct (_extract_domain _) as [domain|]; [|done].
      destruct (PyStr.truthy domain); [|done].
      constructor; [apply startswith_hash | done].
    + unfold lang_tags. destruct (String.eqb _ "en"); [by constructor|].
      destruct (String.eqb _ "ru"); [by constructor|done].
  - intros text.
    pose proof (keyword_tags_of text common_tags) as [Hsub _].
    split; [exact Hsub|].
    eapply sublist_NoDup; [|exact Hsub].
    apply (bool_decide_unpack
             (NoDup ((fun p => "#" +:+ p.1) <$> common_tags))).
    vm_compute. reflexivity.
  - unfold domain_tags. destruct (_extract_domain _) as [domain|]; [|done].
    destruct (PyStr.truthy domain); [|done].
    constructor; [|done]. split.
    + change ("#" +:+ ?s) with (String "#" s). cbn.
      apply not_elem_of_cons. split; [done|].
      apply replace_char_keeps_absent; [done|].
      by apply replace_char_absent.
    + change ("#" +:+ ?s) with (String "#" s). cbn.
      apply not_elem_of_cons. split; [done|].
      by apply replace_char_absent.
Qed.

(** ** Ingestion: what of a raw entry reaches the store *)

Section StoredFields.
Context `{TextLib}.
Variable cfg : Settings.

(** X9.  The tags that the feed gives an entry, its author, and the URL
    and title of the feed have no influence on what ingestion does: two
    entries that agree on the other fields leave the same store and
    issue the same calls.  What the [tags] column of a stored item holds
    is the generated hashtags. *)
Theorem ingest_ignores_feed_metadata (now : Z) (feed : Feed)
    (x y : FeedItem) (s : Store) :
  same_payload x y ->
  ingest_entry cfg now feed x s = ingest_entry cfg now feed y s.
Proof.
  destruct x as [g t l p sm c im tg au fu ft],
           y as [g' t' l' p' sm' c' im' tg' au' fu' ft'].
  unfold same_payload; cbn.
  intros (<- & <- & <- & <- & <- & <- & <-).
  unfold ingest_entry; cbn [guid].
  destruct (find_item (f_id feed) g s) as [old|]; [done|].
  unfold normalize_item; cbn [run_try]. cbn -[_generate_hashtags].
  destruct (_normalize_title t) as [nt|e]; cbn -[_generate_hashtags];
    [|done].
  destruct (_normalize_summary sm) as [ns|e]; cbn -[_generate_hashtags];
    [|done].
  destruct (_normalize_content c) as [nc|e]; cbn -[_generate_hashtags];
    [|done].
  destruct (_count_words nc) as [w|e]; cbn -[_generate_hashtags]; done.
Qed.

End StoredFields.

(** Two entries with the same payload, tagged differently by two feeds. *)
Lemma ingest_ignores_feed_metadata_witness :
  let T := Examples.plain_text in
  let x := mkFeedItem "g" "Title" "http://a.example/1" None "Sum" "Body"
                      None ["sports"] "Ann" "http://a.example/rss" "A" in
  let y := mkFeedItem "g" "Title" "http://a.example/1" None "Sum" "Body"
                      None ["politics"; "world"] "Bob"
                      "http://b.example/rss" "B" in
  let s := Examples.store [] [] [] [] in
  ingest_entry default_settings 5 Examples.feed_a x s
  = ingest_entry default_settings 5 Examples.feed_a y s.
Proof.
  intros T x y s.
  apply (ingest_ignores_feed_metadata (H := T) default_settings 5
           Examples.feed_a x y s).
  repeat split.
Defined.

(** ** The feed parsers: one raw entry per feed entry, or none at all *)

Section ParserFacts.
Context `{TextLib} `{FeedLib}.




End ParserFacts.


(** ** The HTML fallback: regions that start alike *)

Section RegionFacts.
Context `{TextLib} `{FeedLib}.
Variable cfg : Settings.

(** X11.  The GUID of a region found by the HTML fallback is computed
    from the first 100 code points of its text and the URL of the page.
    Two regions of a page that start with the same 100 code points get
    the same GUID, and ingestion stores the first of them only, whatever
    the rest of the second says. *)
Theorem html_regions_same_prefix (now : Z) (feed : Feed)
    (page_title url : string) (a1 a2 : Tag) (x y : FeedItem) (s : Store) :
  PyStr.py_prefix 100 (get_text a1) = PyStr.py_prefix 100 (get_text a2) ->
  article_item now page_title url a1 = Ok x ->
  article_item now page_title url a2 = Ok y ->
  fingerprint_of x <> None ->
  guid x = guid y
  /\ ingest_entries cfg now feed [x; y] s = ingest_entries cfg now feed [x] s.
Proof.
  intros Hpre Hx Hy Hfit.
  assert (Hg : guid x = guid y).
  { revert Hx Hy. unfold article_item.
    destruct (_clean_text (PyStr.py_prefix 100 (get_text a1))); cbn;
      [|discriminate].
    destruct (_clean_text (PyStr.py_prefix 200 (get_text a1))); cbn;
      [|discriminate].
    destruct (_clean_text (get_text a1)); cbn; [|discriminate].
    destruct (title_or_netloc page_title url); cbn; [|discriminate].
    intros [= <-].
    destruct (_clean_text (PyStr.py_prefix 100 (get_text a2))); cbn;
      [|discriminate].
    destruct (_clean_text (PyStr.py_prefix 200 (get_text a2))); cbn;
      [|discriminate].
    destruct (_clean_text (get_text a2)); cbn; [|discriminate].
    intros [= <-]. cbn. unfold _generate_guid. by rewrite Hpre. }
  split; [exact Hg|].
  pose proof (ingest_entries_spec cfg now feed [x] s) as Hspec.
  cbn [ingest_entries] in Hspec |- *.
  destruct (ingest_entry cfg now feed x s) as [[s1 evs1] added].
  cbn in Hspec. destruct Hspec as (_ & _ & Hcov & _).
  assert (Hk : known (f_id feed) (guid y) s1).
  { rewrite <- Hg. apply Hcov; [left|done]. }
  rewrite (ingest_entry_known cfg now feed y s1 Hk). cbn.
  by rewrite app_nil_r.
Qed.

End RegionFacts.

(** Two posts of a blog page that open with the same hundred characters
    of boilerplate: the page yields two raw entries, and ingesting them
    is ingesting the first. *)
Lemma html_regions_same_prefix_witness :
  let T := Examples.plain_text in
  let F := Examples.page_lib "Blog" "posts"
             (fun selector => if String.eqb selector ".post"
                              then [1; 2]%nat else [])
             (fun n => Regions.boilerplate +:+
                       (if Nat.eqb n 1 then "Rates rise" else "Rates fall")) in
  let fetched := fetch_items (_parse_html_fallback 7 "<html>...</html>"
                                                   "http://blog.example/") in
  let s := Examples.store [] [] [] [] in
  length fetched = 2%nat
  /\ ingest_entries default_settings 7 Examples.feed_a fetched s
     = ingest_entries default_settings 7 Examples.feed_a (take 1 fetched) s.
Proof.
  intros T F fetched s. split; [vm_compute; reflexivity|].
  destruct (article_item (H := T) (H0 := F) 7 "Blog" "http://blog.example/" 1%nat)
    as [x|e] eqn:Hx; [|vm_compute in Hx; discriminate].
  destruct (article_item (H := T) (H0 := F) 7 "Blog" "http://blog.example/" 2%nat)
    as [y|e] eqn:Hy; [|vm_compute in Hy; discriminate].
  assert (Hfit : fingerprint_of x <> None).
  { vm_compute in Hx. injection Hx as <-. vm_compute. discriminate. }
  assert (Hf : fetched = [x; y]).
  { vm_compute in Hx, Hy. injection Hx as <-. injection Hy as <-.
    vm_compute. reflexivity. }
  assert (Hpre : PyStr.py_prefix 100 (get_text (FeedLib := F) 1%nat)
                 = PyStr.py_prefix 100 (get_text (FeedLib := F) 2%nat)).
  { vm_compute. reflexivity. }
  rewrite Hf. cbn [take].
  exact (proj2 (html_regions_same_prefix (H := T) (H0 := F)
                  default_settings 7 Examples.feed_a "Blog"
                  "http://blog.example/" 1%nat 2%nat x y s
                  Hpre Hx Hy Hfit)).
Defined.

(** ** Retention: what a cleanup keeps *)

Section RetentionInvariants.
Context `{Telegram}.

Lemma orphan_spec (now : Z) (s : Store) (id : Z) :
  existsb (Z.eqb id) (i_id <$> List.filter (is_old_item now) (items s))
  = true
  <-> exists it, it ∈ items s /\ is_old_item now it = true /\ i_id it = id.
Proof.
  rewrite existsb_exists. split.
  - intros (x & Hin & Hx). apply Z.eqb_eq in Hx as <-.
    apply list_elem_of_In, list_elem_of_fmap in Hin as (it & -> & Hit).
    apply list_elem_of_In, filter_In in Hit as [Hit Hold].
    exists it. by rewrite list_elem_of_In.
  - intros (it & Hin & Hold & <-). exists (i_id it).
    split; [|apply Z.eqb_refl].
    apply list_elem_of_In, list_elem_of_fmap_2, list_elem_of_In, filter_In.
    by rewrite <- list_elem_of_In.
Qed.

Lemma purged_references (now : Z) (s : Store) :
  references_items s -> references_items (purged now s).
Proof.
  intros [Hq Hp].
  assert (Hkept : forall id, id ∈ i_id <$> items s ->
            existsb (Z.eqb id)
              (i_id <$> List.filter (is_old_item now) (items s)) = false ->
            id ∈ i_id <$> items (purged now s)).
  { intros id Hid Hnot. apply list_elem_of_fmap in Hid as (it & -> & Hit).
    apply list_elem_of_fmap_2. cbn.
    apply list_elem_of_In, filter_In. split; [by apply list_elem_of_In|].
    destruct (is_old_item now it) eqn:Hold; [|done].
    assert (Ht : existsb (Z.eqb (i_id it))
                   (i_id <$> List.filter (is_old_item now) (items s))
                 = true) by (apply orphan_spec; by exists it).
    congruence. }
  split.
  - intros q Hin. cbn in Hin.
    apply list_elem_of_In, filter_In in Hin as [Hin Hk].
    apply andb_true_iff in Hk as [_ Hk]. apply negb_true_iff in Hk.
    apply Hkept; [|done]. by apply Hq, list_elem_of_In.
  - intros p Hin. cbn in Hin.
    apply list_elem_of_In, filter_In in Hin as [Hin Hk].
    apply andb_true_iff in Hk as [_ Hk]. apply negb_true_iff in Hk.
    apply Hkept; [|done]. by apply Hp, list_elem_of_In.
Qed.

(** X12.  A cleanup keeps the store referentially intact: when every
    queue entry and every publication belonged to an item before, so
    they do afterwards, whether the cycle commits (the entries and
    publications of a deleted item go with it) or fails (nothing
    changes). *)
Theorem cleanup_keeps_references (faulty : DbOp -> bool) (now : Z)
    (s : Store) :
  references_items s ->
  references_items (_cleanup_old_data faulty now s).1.
Proof.
  intros Href. unfold _cleanup_old_data.
  destruct (existsb faulty cleanup_ops) eqn:Hf.
  - by rewrite cleanup_body_fault.
  - rewrite cleanup_body_no_fault by done. by apply purged_references.
Qed.

Lemma filter_twice {A} (f g : A -> bool) (l : list A) :
  (forall x, In x l -> g x = true -> f x = true) ->
  List.filter f (List.filter g l) = List.filter g l.
Proof.
  induction l as [|x l IH]; intros Himp; cbn; [done|].
  destruct (g x) eqn:Hg; cbn.
  - rewrite (Himp x) by (by left || done). f_equal.
    apply IH. intros y Hy. apply Himp. by right.
  - apply IH. intros y Hy. apply Himp. by right.
Qed.

Lemma purged_no_old_item (now : Z) (s : Store) :
  List.filter (is_old_item now) (items (purged now s)) = [].
Proof.
  cbn. induction (items s) as [|it l IH]; cbn; [done|].
  destruct (is_old_item now it) eqn:Hold; cbn; [done|].
  by rewrite Hold.
Qed.

Lemma purged_twice (now : Z) (s : Store) :
  purged now (purged now s) = purged now s.
Proof.
  unfold purged at 1. rewrite purged_no_old_item. cbn.
  unfold purged. f_equal.
  - apply filter_twice. done.
  - apply filter_twice. intros q _ Hq.
    apply andb_true_iff in Hq as [Hq _]. by rewrite Hq.
  - apply filter_twice. intros p _ Hp.
    apply andb_true_iff in Hp as [Hp _]. by rewrite Hp.
Qed.

(** X13.  What a committed cleanup leaves in place, unchanged: every
    item created within the last 30 days; every queue entry whose item
    is not deleted and which is younger than 7 days or neither
    [completed] nor [failed] (a [pending] or [processing] entry stays
    however old it is, and goes only with its item).  A second cleanup at
    the same time changes nothing. *)
Theorem cleanup_keeps_recent (now : Z) (s : Store) :
  let s' := (_cleanup_old_data (fun _ => false) now s).1 in
  (forall it, it ∈ items s -> now - 30 * one_day <= i_created_at it ->
     it ∈ items s')
  /\ (forall q, q ∈ queue s ->
        (now - 7 * one_day <= q_created_at q
         \/ (q_status q <> "completed" /\ q_status q <> "failed")) ->
        (forall it, it ∈ items s -> i_id it = q_item_id q ->
                    now - 30 * one_day <= i_created_at it) ->
        q ∈ queue s')
  /\ (forall q, q ∈ queue s ->
        (exists it, it ∈ items s /\ i_id it = q_item_id q
                    /\ i_created_at it < now - 30 * one_day) ->
        q ∉ queue s')
  /\ (_cleanup_old_data (fun _ => false) now s').1 = s'.
Proof.
  assert (Hrun : forall st, (_cleanup_old_data (fun _ => false) now st).1
                            = purged now st).
  { intros st. unfold _cleanup_old_data.
    by rewrite cleanup_body_no_fault. }
  cbv zeta. rewrite !Hrun. split; [|split; [|split]].
  - intros it Hin Hage. cbn.
    apply list_elem_of_In, filter_In. split; [by apply list_elem_of_In|].
    apply negb_true_iff. unfold is_old_item, thirty_days.
    apply Z.ltb_ge. lia.
  - intros q Hin Hkeep Hitem. cbn.
    apply list_elem_of_In, filter_In. split; [by apply list_elem_of_In|].
    apply andb_true_iff. split.
    + apply negb_true_iff. unfold is_old_queue_item, seven_days.
      destruct Hkeep as [Hage|[Hc Hf]].
      * apply andb_false_iff. left. apply Z.ltb_ge. lia.
      * apply andb_false_iff. right.
        apply orb_false_iff. split; by apply String.eqb_neq.
    + apply negb_true_iff.
      destruct (existsb _ _) eqn:E; [|done].
      apply orphan_spec in E as (it & Hit & Hold & Hid).
      specialize (Hitem it Hit Hid).
      unfold is_old_item, thirty_days in Hold.
      apply Z.ltb_lt in Hold. lia.
  - intros q Hin (it & Hit & Hid & Hage) Hq. cbn in Hq.
    apply list_elem_of_In, filter_In in Hq as [_ Hk].
    apply andb_true_iff in Hk as [_ Hk]. apply negb_true_iff in Hk.
    assert (Ht : existsb (Z.eqb (q_item_id q))
                   (i_id <$> List.filter (is_old_item now) (items s))
                 = true).
    { apply orphan_spec. exists it. split; [done|]. split; [|done].
      unfold is_old_item, thirty_days. apply Z.ltb_lt. lia. }
    congruence.
  - apply purged_twice.
Qed.

End RetentionInvariants.

(** Two items, each with a pending queue entry that was never drained;
    the older item is past its retention age. *)
Lemma cleanup_keeps_references_witness :
  let P := Examples.reliable in
  let now := 100 * Examples.day in
  let s := Examples.store
             [Examples.item 1 0; Examples.item 2 (99 * Examples.day)]
             [Examples.queue_item 1 1 "post" "pending" None 0 0;
              Examples.queue_item 2 2 "post" "pending" None 0
                                  (99 * Examples.day)]
             [Examples.publication 1 1 0] [] in
  references_items (_cleanup_old_data (fun _ => false) now s).1
  /\ (q_id <$> queue (_cleanup_old_data (fun _ => false) now s).1) = [2].
Proof.
  intros P now s. split; [|vm_compute; reflexivity].
  apply (cleanup_keeps_references (fun _ => false) now s).
  split.
  - intros q Hq. cbn in Hq.
    repeat (apply elem_of_cons in Hq as [->|Hq]; [cbn; set_solver|]).
    by apply elem_of_nil in Hq.
  - intros p Hp. cbn in Hp.
    repeat (apply elem_of_cons in Hp as [->|Hp]; [cbn; set_solver|]).
    by apply elem_of_nil in Hp.
Defined.
